(** * git-bin: a shallow embedding of [src/git-bin.py]

    The script moves binary files of a git working tree into a side store
    (the "binstore") and leaves symbolic links behind.  Everything it does
    goes through collaborators: the filesystem ([os], [os.path]), the
    helper modules [utils], [commands] and [git], and the console.  The
    embedding keeps the control flow of the source and turns every call
    into a collaborator either into an observation of an abstract world or
    into a logged call that may change the world and may raise. *)

From Stdlib Require Import ZArith List String Ascii Bool.
Import ListNotations.

Local Open Scope string_scope.
Local Open Scope Z_scope.

(** ** Strings and paths, as [str] and [posixpath] compute them *)

Module Py.

(** [s.startswith(p)] *)
Definition startswith (s p : string) : bool := String.prefix p s.

Fixpoint last_ascii (s : string) : option ascii :=
  match s with
  | EmptyString => None
  | String c EmptyString => Some c
  | String _ rest => last_ascii rest
  end.

(** [s.endswith("/")] *)
Definition endswith_slash (s : string) : bool :=
  match last_ascii s with
  | Some c => Ascii.eqb c "/"%char
  | None => false
  end.

(** One round of the loop of [posixpath.join]: an absolute component
    replaces what was joined so far. *)
Definition join2 (path b : string) : string :=
  if startswith b "/" then b
  else if String.eqb path "" || endswith_slash path then path ++ b
  else path ++ "/" ++ b.

(** [os.path.join(a, *p)] *)
Definition join (a : string) (p : list string) : string :=
  fold_left join2 p a.

(** Truth value of what [config.get(section, key, None)] returns:
    [None] and the empty string are false. *)
Definition truthy (o : option string) : bool :=
  match o with
  | None => false
  | Some s => negb (String.eqb s "")
  end.

(** Truth value of an integer, as in [if status & MASK:]. *)
Definition nonzero (z : Z) : bool := negb (z =? 0).

Definition tab : string := String (ascii_of_nat 9) "".

(** Constants of the [stat] module. *)
Definition S_IRUSR : Z := 256.   (* 0o400 *)
Definition S_IWUSR : Z := 128.   (* 0o200 *)
Definition S_IRGRP : Z := 32.    (* 0o040 *)
Definition S_IWGRP : Z := 16.    (* 0o020 *)
Definition S_IROTH : Z := 4.     (* 0o004 *)
Definition S_IWOTH : Z := 2.     (* 0o002 *)

(** [p[:p.rfind("/") + 1]]: [p] up to and with its last slash, empty when
    [p] has none. *)
Fixpoint upto_last_slash (p : string) : string :=
  match p with
  | EmptyString => EmptyString
  | String c rest =>
      match upto_last_slash rest with
      | EmptyString =>
          if Ascii.eqb c "/"%char then String c EmptyString else EmptyString
      | head => String c head
      end
  end.

(** [s == "/" * len(s)] *)
Fixpoint all_slashes (s : string) : bool :=
  match s with
  | EmptyString => true
  | String c rest => Ascii.eqb c "/"%char && all_slashes rest
  end.

(** [s.rstrip("/")] *)
Fixpoint rstrip_slashes (s : string) : string :=
  match s with
  | EmptyString => EmptyString
  | String c rest =>
      match rstrip_slashes rest with
      | EmptyString =>
          if Ascii.eqb c "/"%char then EmptyString else String c EmptyString
      | kept => String c kept
      end
  end.

(** [os.path.dirname(p)] *)
Definition dirname (p : string) : string :=
  let head := upto_last_slash p in
  if negb (String.eqb head "") && negb (all_slashes head)
  then rstrip_slashes head
  else head.

End Py.

(** ** Objects of the program *)

(** What the script reads of a [git.GitRepo]: its attributes [path] and
    [reponame].  Its methods talk to git and live in the world. *)
Record GitRepo := mkGitRepo {
  repo_path : string;
  reponame : string
}.

(** The attributes a [FilesystemBinstore] holds once [__init__] returned. *)
Record FilesystemBinstore := mkBinstore {
  bs_gitrepo : GitRepo;
  localpath : string;
  path : string
}.

Record GitBin := mkGitBin {
  gitrepo : GitRepo;
  binstore : FilesystemBinstore
}.

(** The namespace [argparse] hands to [main]. *)
Record Args := mkArgs {
  command : string;
  verbose : bool;
  files : list string
}.

(** The step objects of the [commands] module, by constructor and
    arguments.  [SafeMoveFileCommand] takes an optional third argument. *)
Inductive Command :=
| MakeDirectoryCommand (dir : string)
| LinkToFileCommand (link target : string)
| SafeMoveFileCommand (src dst : string) (extra : option string)
| ChmodCommand (mode : Z) (file : string)
| GitAddCommand (repo : GitRepo) (file : string)
| CopyFileCommand (src dst : string).

(** Calls that change something outside the process. *)
Inductive Call :=
| Execute (c : Command)                       (* one step of a CompoundCommand *)
| RepoAdd (file : string)                     (* gitrepo.add(file) *)
| RepoUnstage (file : string)                 (* gitrepo.unstage(file) *)
| RepoRestore (file : string)                 (* gitrepo.restore(file) *)
| ConfigSet (section key value : string).     (* gitrepo.config.set(...) *)

(** Lines written by [print].  A header line formats a list with [%s],
    which gives the list's [repr]; it is kept structured. *)
Inductive Output :=
| Line (text : string)
| Header (method : string) (filenames : list string).

Inductive Event :=
| Called (c : Call)
| Printed (o : Output).

Inductive Exn :=
| PyException (msg : string)                  (* raise Exception(msg) *)
| UnknownCommandException (msg : string)
| TypeError
| AttributeError (attribute : string)         (* no such attribute on the object *)
| OSError
| SystemExit (code : Z)
| StepError (what : string).                  (* raised inside a collaborator *)

Inductive Outcome (A : Type) :=
| Returned (a : A)
| Raised (e : Exn)
| OutOfFuel.

Arguments Returned {A} a.
Arguments Raised {A} e.
Arguments OutOfFuel {A}.

(** The calls in a trace, prints dropped, in order. *)
Fixpoint mutations (t : list Event) : list Call :=
  match t with
  | [] => []
  | Called c :: rest => c :: mutations rest
  | Printed _ :: rest => mutations rest
  end.

(** A run: how it ended, the world it reached, the calls and prints it
    made, oldest first. *)
Record Run (World A : Type) := mkRun {
  outcome : Outcome A;
  final : World;
  trace : list Event
}.

Arguments mkRun {World A}.
Arguments outcome {World A}.
Arguments final {World A}.
Arguments trace {World A}.

(** ** The collaborators

    [World] is the state outside the process: the filesystem, the git index
    and configuration.  Observations read it, [perform] is the effect of
    one call on it together with the exception the call raises, if any.

    A path is a symbolic link when [os_readlink] succeeds on it, so
    [os.path.islink] is derived.

    The status constants belong to the [git] module. *)
Class Collab (World : Type) := {
  os_path_exists : World -> string -> bool;
  os_readlink : World -> string -> option string;
  os_path_isdir : World -> string -> bool;
  os_listdir : World -> string -> list string;

  expand_filenames : World -> list string -> list string;
  is_file_binary : World -> string -> bool;
  md5_file : World -> string -> string;

  STATUS_STAGED_MASK : Z;
  STATUS_STAGED : Z;
  STATUS_UNTRACKED : Z;
  STATUS_MODIFIED : Z;
  STATUS_TYPECHANGED : Z;
  STATUS_CHANGED_MASK : Z;
  git_GitRepo : World -> string -> GitRepo;
  config_get : World -> string -> string -> option string;
  status : World -> string -> Z;

  perform : Call -> World -> World * option Exn
}.

Section Runs.

Context {World : Type}.

Definition M (A : Type) : Type := World -> Run World A.

Definition ret {A} (a : A) : M A :=
  fun w => mkRun (Returned a) w [].

Definition raise {A} (e : Exn) : M A :=
  fun w => mkRun (Raised e) w [].

Definition out_of_fuel {A} : M A :=
  fun w => mkRun OutOfFuel w [].

Definition bind {A B} (m : M A) (k : A -> M B) : M B :=
  fun w =>
    let r := m w in
    match outcome r with
    | Returned a =>
        let r' := k a (final r) in
        mkRun (outcome r') (final r') (trace r ++ trace r')
    | Raised e => mkRun (Raised e) (final r) (trace r)
    | OutOfFuel => mkRun OutOfFuel (final r) (trace r)
    end.

Definition observe {A} (f : World -> A) : M A :=
  fun w => mkRun (Returned (f w)) w [].

Definition print (o : Output) : M unit :=
  fun w => mkRun (Returned tt) w [Printed o].

End Runs.

Notation "x <- m ;; k" := (bind m (fun x => k))
  (at level 100, m at next level, right associativity).
Notation "m ;; k" := (bind m (fun _ => k))
  (at level 100, right associativity).

(** [for x in l: body(x)] *)
Fixpoint for_each {World A} (l : list A) (body : A -> M unit)
  : @M World unit :=
  match l with
  | [] => ret tt
  | x :: rest => body x ;; for_each rest body
  end.

Section Program.

Context {World : Type} `{Collab World}.

Definition call (c : Call) : M unit :=
  fun w =>
    let '(w', r) := perform c w in
    mkRun (match r with None => Returned tt | Some e => Raised e end)
          w' [Called c].

Definition os_path_islink (w : World) (p : string) : bool :=
  match os_readlink w p with Some _ => true | None => false end.

(** Modelled from the spec: [commands.CompoundCommand(...).execute()],
    whose module is not part of the source; the steps run strictly in
    order and the first one that fails stops the rest and passes its
    error on, nothing is rolled back. *)
Definition CompoundCommand_execute (steps : list Command) : M unit :=
  for_each steps (fun c => call (Execute c)).

(** [os.walk(top)] with its defaults (top-down, links not followed),
    driving [body] at each [yield].  The generator lists a directory
    only when the loop asks for the next triple, so each level is read
    in the world the loop body left behind. *)
Fixpoint os_walk (fuel : nat)
         (body : string -> list string -> list string -> M unit)
         (top : string) : M unit :=
  match fuel with
  | O => out_of_fuel
  | S n =>
      split <- observe (fun w =>
                 partition (fun name => os_path_isdir w (Py.join top [name]))
                           (os_listdir w top)) ;;
      body top (fst split) (snd split) ;;
      for_each (fst split) (fun name =>
        let new_path := Py.join top [name] in
        link <- observe (fun w => os_path_islink w new_path) ;;
        if link then ret tt else os_walk n body new_path)
  end.

(** *** class FilesystemBinstore *)

Definition no_binstorebase_msg : string :=
  "No git-bin.binstorebase is specified. You probably want to add this to your ~/.gitconfig".

(** [FilesystemBinstore.init]; returns the value it leaves in
    [self.path]. *)
Definition FilesystemBinstore_init (repo : GitRepo) (local : string)
  : M string :=
  binstore_base <- observe (fun w => config_get w "git-bin" "binstorebase") ;;
  match binstore_base with
  | Some base =>
      if String.eqb base "" then raise (PyException no_binstorebase_msg)
      else
        let p := Py.join base [reponame repo] in
        CompoundCommand_execute
          [ MakeDirectoryCommand p;
            LinkToFileCommand local p ] ;;
        call (ConfigSet "binstore" "path" p) ;;
        ret p
  | None => raise (PyException no_binstorebase_msg)
  end.

(** [FilesystemBinstore.__init__] *)
Definition FilesystemBinstore_new (repo : GitRepo) : M FilesystemBinstore :=
  let local := Py.join (repo_path repo) [".git"; "binstore"] in
  configured <- observe (fun w => config_get w "binstore" "path") ;;
  match configured with
  | Some p =>
      if String.eqb p "" then
        p' <- FilesystemBinstore_init repo local ;;
        ret (mkBinstore repo local p')
      else ret (mkBinstore repo local p)
  | None =>
      p' <- FilesystemBinstore_init repo local ;;
      ret (mkBinstore repo local p')
  end.

Definition read_only_mode : Z :=
  Z.lor (Z.lor Py.S_IRUSR Py.S_IRGRP) Py.S_IROTH.

(** [FilesystemBinstore.add_file] *)
Definition FilesystemBinstore_add_file (self : FilesystemBinstore)
           (filename : string) : M unit :=
  digest_ <- observe (fun w => md5_file w filename) ;;
  let binstore_filename := Py.join (localpath self) [digest_] in
  CompoundCommand_execute
    [ SafeMoveFileCommand filename binstore_filename None;
      LinkToFileCommand filename binstore_filename;
      ChmodCommand read_only_mode binstore_filename;
      GitAddCommand (bs_gitrepo self) filename ].

(** [FilesystemBinstore.edit_file]; [os.readlink] raises [OSError] on a
    path that is no symbolic link. *)
Definition FilesystemBinstore_edit_file (self : FilesystemBinstore)
           (filename : string) : M unit :=
  link <- observe (fun w => os_readlink w filename) ;;
  match link with
  | None => raise OSError
  | Some binstore_filename =>
      CompoundCommand_execute
        [ SafeMoveFileCommand binstore_filename filename
                              (Some (Py.dirname filename)) ]
  end.

(** The source calls [has_file], [has], [get_binstore_filename] and
    [digest] on the binstore.  Neither [FilesystemBinstore] nor its base
    class [Binstore] defines them and neither has a [__getattr__], so
    looking the attribute up raises [AttributeError], before any argument
    of the call is evaluated. *)
Definition FilesystemBinstore_has_file (self : FilesystemBinstore)
           (target : string) : @M World bool :=
  raise (AttributeError "has_file").

Definition FilesystemBinstore_has (self : FilesystemBinstore)
           (filename : string) : @M World bool :=
  raise (AttributeError "has").

Definition FilesystemBinstore_get_binstore_filename
           (self : FilesystemBinstore) (filename : string) : @M World string :=
  raise (AttributeError "get_binstore_filename").

Definition FilesystemBinstore_digest (self : FilesystemBinstore)
           (filename : string) : @M World string :=
  raise (AttributeError "digest").

(** [FilesystemBinstore.is_binstore_link]; [and] evaluates [self.has_file]
    only when the target starts with [self.path]. *)
Definition is_binstore_link (self : FilesystemBinstore) (filename : string)
  : M bool :=
  link <- observe (fun w => os_readlink w filename) ;;
  match link with
  | None => ret false
  | Some target =>
      if Py.startswith target (path self) then
        member <- FilesystemBinstore_has_file self target ;;
        if member then ret true else ret false
      else ret false
  end.

(** *** class GitBin *)

(** The body of the loop of [GitBin.add] for one file name.  [recurse] is
    [self.add], [walk_fuel] bounds the depth [os.walk] descends. *)
Definition GitBin_add_one (self : GitBin) (recurse : list string -> M unit)
           (walk_fuel : nat) (filename : string) : M unit :=
  print (Line (Py.tab ++ filename)) ;;
  present <- observe (fun w => os_path_exists w filename) ;;
  if negb present then
    print (Line ("'" ++ filename ++ "' did not match any files"))
  else
    link <- observe (fun w => os_readlink w filename) ;;
    plain_link <- match link with
                  | Some target =>
                      member <- FilesystemBinstore_has_file (binstore self) target ;;
                      ret (negb member)
                  | None => ret false
                  end ;;
    if plain_link then
      print (Line "islink: DO_GIT_ADD")
    else
      binary <- observe (fun w => is_file_binary w filename) ;;
      if negb binary then
        call (RepoAdd filename)
      else
        linked <- is_binstore_link (binstore self) filename ;;
        if linked then ret tt
        else
          directory <- observe (fun w => os_path_isdir w filename) ;;
          if directory then
            print (Line (Py.tab ++ "recursing into " ++ filename)) ;;
            os_walk walk_fuel
              (fun root dirs files_ =>
                 match dirs with
                 | [] => ret tt
                 | _ => recurse (map (fun dn => Py.join root [dn]) dirs)
                 end ;;
                 match files_ with
                 | [] => ret tt
                 | _ => recurse (map (fun fn => Py.join root [fn]) files_)
                 end)
              filename
          else
            FilesystemBinstore_add_file (binstore self) filename.

(** [GitBin.add]; [fuel] bounds the nesting of [self.add] calls. *)
Fixpoint GitBin_add (fuel : nat) (self : GitBin) (filenames : list string)
  : M unit :=
  match fuel with
  | O => out_of_fuel
  | S n =>
      names <- observe (fun w => expand_filenames w filenames) ;;
      print (Header "GitBin.add" names) ;;
      for_each names (GitBin_add_one self (GitBin_add n self) n)
  end.

(** [status & git.STATUS_STAGED_MASK == git.STATUS_STAGED] *)
Definition fully_staged (st : Z) : bool :=
  Z.land st STATUS_STAGED_MASK =? STATUS_STAGED.

Definition reset_hint (filename : string) : Output :=
  Line ("you probably meant to do: git bin checkout -- " ++ filename).

Definition checkout_hint (filename : string) : Output :=
  Line ("you probably meant to do: git bin reset " ++ filename).

(** The body of the loop of [GitBin.reset]. *)
Definition GitBin_reset_one (self : GitBin) (filename : string) : M unit :=
  st <- observe (fun w => status w filename) ;;
  if negb (fully_staged st) then
    print (reset_hint filename)
  else
    call (RepoUnstage filename) ;;
    new_status <- observe (fun w => status w filename) ;;
    tracked <- FilesystemBinstore_has (binstore self) filename ;;
    if tracked && (Py.nonzero (Z.land new_status STATUS_UNTRACKED)
                   || Py.nonzero (Z.land new_status STATUS_MODIFIED))
    then
      src <- FilesystemBinstore_get_binstore_filename (binstore self) filename ;;
      CompoundCommand_execute [CopyFileCommand src filename]
    else ret tt.

(** [GitBin.reset] *)
Definition GitBin_reset (self : GitBin) (filenames : list string) : M unit :=
  names <- observe (fun w => expand_filenames w filenames) ;;
  print (Header "GitBin.reset" names) ;;
  for_each names (GitBin_reset_one self).

(** ["%s.%s.justincase" % (filename, digest)] joined to ["/tmp"]. *)
Definition justincase_filename (filename digest_ : string) : string :=
  Py.join "/tmp" [filename ++ "." ++ digest_ ++ ".justincase"].

(** The body of the loop of [GitBin.checkout_dashdash]. *)
Definition GitBin_checkout_dashdash_one (self : GitBin) (filename : string)
  : M unit :=
  st <- observe (fun w => status w filename) ;;
  if fully_staged st then
    print (checkout_hint filename)
  else if negb (Py.nonzero (Z.land st STATUS_CHANGED_MASK)) then
    ret tt
  else
    at_risk <- (if Py.nonzero (Z.land st STATUS_TYPECHANGED)
                then
                  tracked <- FilesystemBinstore_has (binstore self) filename ;;
                  ret (negb tracked)
                else ret false) ;;
    (if at_risk then
       digest_ <- FilesystemBinstore_digest (binstore self) filename ;;
       src <- FilesystemBinstore_get_binstore_filename (binstore self) filename ;;
       CompoundCommand_execute
         [CopyFileCommand src (justincase_filename filename digest_)]
     else ret tt) ;;
    call (RepoRestore filename).

(** [GitBin.checkout_dashdash] *)
Definition GitBin_checkout_dashdash (self : GitBin) (filenames : list string)
  : M unit :=
  names <- observe (fun w => expand_filenames w filenames) ;;
  print (Header "GitBin.checkout_dashdash" names) ;;
  for_each names (GitBin_checkout_dashdash_one self).

(** What [getattr(self, name)] finds on a [GitBin] instance. *)
Inductive Attribute :=
| Handler_add
| Handler_reset
| Handler_checkout_dashdash
| NotACommand        (* calling it with one argument raises TypeError *)
| SubclassHook.      (* object.__subclasshook__, returns NotImplemented *)

(** Attributes of a [GitBin] instance besides the three handlers: the two
    fields, the other two methods, and what a new-style class inherits
    from [object]. *)
Definition other_attributes : list string :=
  [ "gitrepo"; "binstore"; "dispatch_command"; "__init__";
    "__module__"; "__doc__"; "__dict__"; "__weakref__";
    "__class__"; "__delattr__"; "__format__"; "__getattribute__";
    "__hash__"; "__new__"; "__reduce__"; "__reduce_ex__"; "__repr__";
    "__setattr__"; "__sizeof__"; "__str__" ].

Definition GitBin_getattr (name : string) : option Attribute :=
  if String.eqb name "add" then Some Handler_add
  else if String.eqb name "reset" then Some Handler_reset
  else if String.eqb name "checkout_dashdash" then Some Handler_checkout_dashdash
  else if String.eqb name "__subclasshook__" then Some SubclassHook
  else if existsb (String.eqb name) other_attributes then Some NotACommand
  else None.

(** [hasattr(self, name)] *)
Definition GitBin_hasattr (name : string) : bool :=
  match GitBin_getattr name with Some _ => true | None => false end.

Definition unknown_command_msg (name : string) : string :=
  "The command '" ++ name ++ "' is not known to git-bin".

(** [GitBin.dispatch_command] *)
Definition GitBin_dispatch_command (fuel : nat) (self : GitBin)
           (name : string) (args : Args) : M unit :=
  match GitBin_getattr name with
  | None => raise (UnknownCommandException (unknown_command_msg name))
  | Some Handler_add => GitBin_add fuel self (files args)
  | Some Handler_reset => GitBin_reset self (files args)
  | Some Handler_checkout_dashdash => GitBin_checkout_dashdash self (files args)
  | Some NotACommand => raise TypeError
  | Some SubclassHook => ret tt
  end.

(** [main] *)
Definition main (fuel : nat) (args : Args) : M unit :=
  repo <- observe (fun w => git_GitRepo w ".") ;;
  store <- FilesystemBinstore_new repo ;;
  let gitbin := mkGitBin repo store in
  GitBin_dispatch_command fuel gitbin (command args) args.

(** The [choices] of the positional [command] in [build_options_parser]. *)
Definition command_choices : list string :=
  ["add"; "edit"; "reset"; "checkout_dashdash"].

Definition parser_accepts (name : string) : bool :=
  existsb (String.eqb name) command_choices.

(** The script body under [if __name__ == '__main__'], on a command line
    already split into its command, its flag and its files: [argparse]
    exits with status 2 on a command outside [choices] or when no file is
    given ([nargs="+"]), otherwise [main] runs. *)
Definition script (fuel : nat) (name : string) (verbose_ : bool)
           (files_ : list string) : M unit :=
  if parser_accepts name && negb (Nat.eqb (List.length files_) 0)
  then main fuel (mkArgs name verbose_ files_)
  else raise (SystemExit 2).

End Program.

(** ** A sample repository

    A small concrete world: tables for what the filesystem, git and the
    store answer, and the two calls whose effect the script reads back
    ([unstage] changes a status, [config.set] a configuration entry). *)

Module Sample.

Record World := mkWorld {
  links : list (string * string);           (* symbolic link, target *)
  existing : list string;                   (* os.path.exists *)
  directories : list (string * list string);
  binaries : list string;                   (* files sniffed as binary *)
  md5s : list (string * string);
  stored : list string;                     (* store-side paths holding an object *)
  cfg : list (string * string);             (* "section.key", value *)
  index : list (string * Z);                (* status of a path *)
  once_unstaged : list (string * Z)         (* status it shows after unstage *)
}.

Fixpoint lookup {A} (k : string) (l : list (string * A)) : option A :=
  match l with
  | [] => None
  | (k', v) :: rest => if String.eqb k k' then Some v else lookup k rest
  end.

Definition mem (k : string) (l : list string) : bool :=
  existsb (String.eqb k) l.

Definition or_else {A} (o : option A) (d : A) : A :=
  match o with Some a => a | None => d end.

Definition untracked : Z := 4.

Definition step (c : Call) (w : World) : World * option Exn :=
  match c with
  | RepoUnstage f =>
      (mkWorld (links w) (existing w) (directories w) (binaries w) (md5s w)
               (stored w) (cfg w)
               ((f, or_else (lookup f (once_unstaged w)) untracked) :: index w)
               (once_unstaged w),
       None)
  | ConfigSet s k v =>
      (mkWorld (links w) (existing w) (directories w) (binaries w) (md5s w)
               (stored w) ((s ++ "." ++ k, v) :: cfg w) (index w)
               (once_unstaged w),
       None)
  | _ => (w, None)
  end.

#[global] Instance collab : Collab World := {
  os_path_exists w p := mem p (existing w);
  os_readlink w p := lookup p (links w);
  os_path_isdir w p :=
    match lookup p (directories w) with Some _ => true | None => false end;
  os_listdir w p := or_else (lookup p (directories w)) [];
  expand_filenames _ l := l;
  is_file_binary w p := mem p (binaries w);
  md5_file w p := or_else (lookup p (md5s w)) "";
  STATUS_STAGED_MASK := 3;
  STATUS_STAGED := 1;
  STATUS_UNTRACKED := untracked;
  STATUS_MODIFIED := 8;
  STATUS_TYPECHANGED := 16;
  STATUS_CHANGED_MASK := 28;
  git_GitRepo _ _ := mkGitRepo "/work/repo" "repo";
  config_get w s k := lookup (s ++ "." ++ k) (cfg w);
  status w p := or_else (lookup p (index w)) 0;
  perform := step
}.

Definition repo : GitRepo := mkGitRepo "/work/repo" "repo".

Definition store : FilesystemBinstore :=
  mkBinstore repo "/work/repo/.git/binstore" "/srv/binstore/repo".

Definition gitbin : GitBin := mkGitBin repo store.

Definition logo_md5 : string := "9e107d9d372bb6826bd81d3542a419d6".

Definition base_cfg : list (string * string) :=
  [("git-bin.binstorebase", "/srv/binstore")].

Definition full_cfg : list (string * string) :=
  ("binstore.path", "/srv/binstore/repo") :: base_cfg.

(** A fresh clone: the base directory is configured, the store is not. *)
Definition fresh : World :=
  mkWorld [] ["big.bin"] [] ["big.bin"] [("big.bin", logo_md5)] []
          base_cfg [] [].

(** Nothing configured at all. *)
Definition unconfigured : World :=
  mkWorld [] ["big.bin"] [] ["big.bin"] [("big.bin", logo_md5)] [] [] [] [].

(** [logo.png] is a link into the store and its object is sniffed as
    binary; [notes.lnk] is a link into the store whose object is not;
    [docs] is a link to a directory outside the store. *)
Definition tracked : World :=
  mkWorld [ ("logo.png", "/srv/binstore/repo/" ++ logo_md5);
            ("notes.lnk", "/srv/binstore/repo/d41d8cd98f00b204e9800998ecf8427e");
            ("docs", "/usr/share/doc") ]
          ["logo.png"; "notes.lnk"; "docs"]
          [("docs", ["readme.bin"])]
          ["logo.png"; "docs"]
          [("logo.png", logo_md5)]
          [ "/srv/binstore/repo/" ++ logo_md5;
            "/srv/binstore/repo/d41d8cd98f00b204e9800998ecf8427e" ]
          full_cfg
          []
          [].

(** [logo.png] was added through the store and is staged; once unstaged
    git reports it untracked. *)
Definition staged_logo : World :=
  mkWorld [("logo.png", "/srv/binstore/repo/" ++ logo_md5)]
          ["logo.png"] [] ["logo.png"] [("logo.png", logo_md5)]
          ["/srv/binstore/repo/" ++ logo_md5]
          full_cfg
          [("logo.png", 1)]
          [("logo.png", 4)].

(** [logo.png] was a store link, has been replaced by a real file with
    new content; [st] is the status git reports for it. *)
Definition replaced (st : Z) : World :=
  mkWorld [] ["logo.png"] [] ["logo.png"] [("logo.png", logo_md5)] []
          full_cfg
          [("logo.png", st)]
          [].

End Sample.

(** ** A repository where some calls fail

    The sample repository with a list of broken paths: a git call or a
    step that works on one of them raises, everything else is as in the
    sample. *)

Module Faulty.

Record World := mkWorld {
  inner : Sample.World;
  broken : list string
}.

Definition fails (c : Call) (w : World) : bool :=
  match c with
  | RepoAdd f | RepoUnstage f | RepoRestore f => Sample.mem f (broken w)
  | Execute (MakeDirectoryCommand d) => Sample.mem d (broken w)
  | Execute (SafeMoveFileCommand src _ _) => Sample.mem src (broken w)
  | Execute (CopyFileCommand _ dst) => Sample.mem dst (broken w)
  | _ => false
  end.

Definition step (c : Call) (w : World) : World * option Exn :=
  if fails c w then (w, Some (StepError "broken"))
  else (mkWorld (fst (Sample.step c (inner w))) (broken w),
        snd (Sample.step c (inner w))).

#[global] Instance collab : Collab World := {
  os_path_exists w := os_path_exists (inner w);
  os_readlink w := os_readlink (inner w);
  os_path_isdir w := os_path_isdir (inner w);
  os_listdir w := os_listdir (inner w);
  expand_filenames w := expand_filenames (inner w);
  is_file_binary w := is_file_binary (inner w);
  md5_file w := md5_file (inner w);
  STATUS_STAGED_MASK := 3;
  STATUS_STAGED := 1;
  STATUS_UNTRACKED := 4;
  STATUS_MODIFIED := 8;
  STATUS_TYPECHANGED := 16;
  STATUS_CHANGED_MASK := 28;
  git_GitRepo w := git_GitRepo (inner w);
  config_get w := config_get (inner w);
  status w := status (inner w);
  perform := step
}.

End Faulty.

(** More states of the sample repository. *)

Module Scenes.

(** Two plain binary files, nothing stored yet. *)
Definition two_files : Sample.World :=
  Sample.mkWorld [] ["big.bin"; "small.bin"] [] ["big.bin"; "small.bin"]
                 [("big.bin", Sample.logo_md5);
                  ("small.bin", "d41d8cd98f00b204e9800998ecf8427e")]
                 [] Sample.full_cfg [] [].

(** A directory [assets] holding two files and no directory. *)
Definition flat_directory : Sample.World :=
  Sample.mkWorld []
                 ["assets"; "assets/a.bin"; "assets/notes.txt"]
                 [("assets", ["a.bin"; "notes.txt"])]
                 ["assets"; "assets/a.bin"]
                 [("assets/a.bin", Sample.logo_md5)]
                 [] Sample.full_cfg [] [].

(** [logo.png] and [icon.png] are both staged. *)
Definition two_staged : Sample.World :=
  Sample.mkWorld [] ["logo.png"; "icon.png"] [] ["logo.png"; "icon.png"]
                 [("logo.png", Sample.logo_md5)] []
                 Sample.full_cfg
                 [("logo.png", 1); ("icon.png", 1)]
                 [].

(** [big.bin] has been added: it is a link to the name [add_file] built,
    and the store has that name. *)
Definition after_add : Sample.World :=
  Sample.mkWorld [("big.bin", "/work/repo/.git/binstore/" ++ Sample.logo_md5)]
                 ["big.bin"] [] ["big.bin"]
                 [("big.bin", Sample.logo_md5)]
                 ["/work/repo/.git/binstore/" ++ Sample.logo_md5]
                 Sample.full_cfg [] [].

(** [assets/a.bin], found by a walk of [assets], is a link into the
    alias directory. *)
Definition walked_link : Sample.World :=
  Sample.mkWorld [("assets/a.bin", "/work/repo/.git/binstore/" ++ Sample.logo_md5)]
                 ["assets"; "assets/a.bin"]
                 [("assets", ["a.bin"])]
                 ["assets"; "assets/a.bin"]
                 [("assets/a.bin", Sample.logo_md5)]
                 ["/work/repo/.git/binstore/" ++ Sample.logo_md5]
                 Sample.full_cfg [] [].

(** The two staged files, with every git call on [logo.png] failing. *)
Definition logo_broken : Faulty.World :=
  Faulty.mkWorld two_staged ["logo.png"].

(** The two plain files, with every step on [small.bin] failing. *)
Definition small_broken : Faulty.World :=
  Faulty.mkWorld two_files ["small.bin"].

End Scenes.

(** ** Kinds of calls *)

(** The calls [add] makes: [gitrepo.add] and the four steps of
    [add_file], the chmod with mode 0444. *)
Definition add_call (c : Call) : bool :=
  match c with
  | RepoAdd _ => true
  | Execute (SafeMoveFileCommand _ _ None) => true
  | Execute (LinkToFileCommand _ _) => true
  | Execute (ChmodCommand mode _) => mode =? 292
  | Execute (GitAddCommand _ _) => true
  | _ => false
  end.

(** The calls [reset] makes on [filename]. *)
Definition reset_call (filename : string) (c : Call) : bool :=
  match c with
  | RepoUnstage f => String.eqb f filename
  | Execute (CopyFileCommand _ dst) => String.eqb dst filename
  | _ => false
  end.

(** The calls [checkout_dashdash] makes on [filename]. *)
Definition checkout_call (filename : string) (c : Call) : bool :=
  match c with
  | RepoRestore f => String.eqb f filename
  | Execute (CopyFileCommand _ _) => true
  | _ => false
  end.

(** ** What the spec says [insert] does, in its own words

    The pipeline of [insert(path)] as section 4.1 of the spec writes it,
    with the target name [storeRoot/Digest]; compared below with the steps
    [FilesystemBinstore_add_file] issues. *)
Definition spec_insert_steps {World : Type} `{Collab World}
           (self : FilesystemBinstore) (w : World) (filename : string)
  : list Call :=
  let target := Py.join (path self) [md5_file w filename] in
  [ Execute (SafeMoveFileCommand filename target None);
    Execute (LinkToFileCommand filename target);
    Execute (ChmodCommand read_only_mode target);
    Execute (GitAddCommand (bs_gitrepo self) filename) ].

(** Write permission for owner, group and other. *)
Definition write_bits : Z :=
  Z.lor (Z.lor Py.S_IWUSR Py.S_IWGRP) Py.S_IWOTH.

(** * Properties *)

Section Properties.

Context {World : Type} `{Collab World}.

(** ** Loops and pipelines *)

Lemma run_eta (A : Type) (r : Run World A) :
  mkRun (outcome r) (final r) (trace r) = r.
Proof. destruct r; reflexivity. Qed.

Lemma bind_ret_l (A B : Type) (a : A) (k : A -> M B) (w : World) :
  bind (ret a) k w = k a w.
Proof. unfold bind, ret; simpl. apply run_eta. Qed.

Lemma bind_observe (A B : Type) (f : World -> A) (k : A -> M B) (w : World) :
  bind (observe f) k w = k (f w) w.
Proof. unfold bind, observe; simpl. apply run_eta. Qed.

Lemma bind_assoc (A B C : Type) (m : M A) (k : A -> M B) (k' : B -> M C)
      (w : World) :
  bind (bind m k) k' w = bind m (fun a => bind (k a) k') w.
Proof.
  unfold bind.
  destruct (m w) as [[a | e | ] w1 t1]; simpl; try reflexivity.
  destruct (k a w1) as [[b | e | ] w2 t2]; simpl; try reflexivity.
  now rewrite app_assoc.
Qed.

Lemma bind_ext (A B : Type) (m : M A) (k k' : A -> M B) (w : World) :
  (forall a w1, k a w1 = k' a w1) -> bind m k w = bind m k' w.
Proof.
  intro Hk. unfold bind.
  destruct (m w) as [[a | e | ] w1 t1]; simpl; try reflexivity.
  now rewrite Hk.
Qed.

Lemma for_each_app (A : Type) (body : A -> M unit) (l1 l2 : list A)
      (w : World) :
  for_each (l1 ++ l2) body w
  = bind (for_each l1 body) (fun _ => for_each l2 body) w.
Proof.
  revert w; induction l1 as [| x l1 IH]; intro w.
  - change (for_each l2 body w = bind (ret tt) (fun _ => for_each l2 body) w).
    now rewrite bind_ret_l.
  - change (bind (body x) (fun _ => for_each (l1 ++ l2) body) w
            = bind (bind (body x) (fun _ => for_each l1 body))
                   (fun _ => for_each l2 body) w).
    rewrite bind_assoc. apply bind_ext. intros _ w1. apply IH.
Qed.

(** A file in the middle of a batch is handled in the world the files
    before it left behind. *)
Lemma for_each_middle (A : Type) (body : A -> M unit) (k : M unit)
      (before after : list A) (x : A) (w : World) :
  body x (final (for_each before body w))
  = k (final (for_each before body w)) ->
  for_each (before ++ x :: after) body w
  = bind (for_each before body)
         (fun _ => bind k (fun _ => for_each after body)) w.
Proof.
  intro Hx. rewrite for_each_app.
  change (for_each (x :: after) body)
    with (bind (body x) (fun _ => for_each after body)).
  unfold bind at 1 3.
  destruct (for_each before body w) as [[[] | e | ] w1 t1];
    simpl in *; try reflexivity.
  unfold bind. now rewrite Hx.
Qed.

(** A loop whose body leaves the world alone and only prints, on every
    element, leaves the world alone and makes no call. *)
Lemma for_each_quiet (A : Type) (body : A -> M unit) (l : list A)
      (w : World) :
  (forall x, In x l ->
     outcome (body x w) = Returned tt /\ final (body x w) = w
     /\ mutations (trace (body x w)) = []) ->
  outcome (for_each l body w) = Returned tt
  /\ final (for_each l body w) = w
  /\ mutations (trace (for_each l body w)) = [].
Proof.
  induction l as [| x l IH]; intro Hq; simpl.
  - repeat split.
  - destruct (Hq x (or_introl eq_refl)) as (Ho & Hf & Hm).
    destruct IH as (Ho' & Hf' & Hm').
    { intros y Hy. apply Hq. now right. }
    unfold bind. rewrite Ho; simpl. rewrite Hf. repeat split; trivial.
    clear - Hm Hm'.
    induction (trace (body x w)) as [| [c | o] t IHt]; simpl in *;
      [assumption | discriminate | auto].
Qed.

(** The calls a pipeline makes are a prefix of its steps, in order. *)
Lemma execute_prefix (steps : list Command) (w : World) :
  exists k,
    trace (CompoundCommand_execute steps w)
    = map (fun c => Called (Execute c)) (firstn k steps).
Proof.
  unfold CompoundCommand_execute.
  revert w; induction steps as [| c steps IH]; intro w; simpl.
  - exists 0%nat. reflexivity.
  - unfold bind, call. destruct (perform (Execute c) w) as [w1 [e |]]; simpl.
    + exists 1%nat. reflexivity.
    + destruct (IH w1) as [k Hk]. exists (S k). simpl. f_equal. exact Hk.
Qed.

(** A pipeline that returns has run every step. *)
Lemma execute_returned (steps : list Command) (w : World) :
  outcome (CompoundCommand_execute steps w) = Returned tt ->
  trace (CompoundCommand_execute steps w)
  = map (fun c => Called (Execute c)) steps.
Proof.
  unfold CompoundCommand_execute.
  revert w; induction steps as [| c steps IH]; intro w; simpl.
  - reflexivity.
  - unfold bind, call. destruct (perform (Execute c) w) as [w1 [e |]]; simpl.
    + discriminate.
    + intro Hr. f_equal. apply IH. exact Hr.
Qed.

(** A pipeline that stops early stops with the error of the step it
    stopped at; it never runs out of fuel. *)
Lemma execute_outcome (steps : list Command) (w : World) :
  outcome (CompoundCommand_execute steps w) = Returned tt
  \/ exists e, outcome (CompoundCommand_execute steps w) = Raised e.
Proof.
  unfold CompoundCommand_execute.
  revert w; induction steps as [| c steps IH]; intro w; simpl.
  - now left.
  - unfold bind, call. destruct (perform (Execute c) w) as [w1 [e |]]; simpl.
    + right. now exists e.
    + apply IH.
Qed.

(** ** One step of a run *)

Lemma bind_print (B : Type) (o : Output) (k : unit -> M B) (w : World) :
  bind (print o) k w
  = mkRun (outcome (k tt w)) (final (k tt w)) (Printed o :: trace (k tt w)).
Proof. reflexivity. Qed.

Lemma bind_raise (A B : Type) (e : Exn) (k : A -> M B) (w : World) :
  bind (raise e) k w = mkRun (Raised e) w [].
Proof. reflexivity. Qed.

Lemma bind_call (B : Type) (c : Call) (k : unit -> M B) (w : World) :
  bind (call c) k w
  = match snd (perform c w) with
    | None =>
        let r := k tt (fst (perform c w)) in
        mkRun (outcome r) (final r) (Called c :: trace r)
    | Some e => mkRun (Raised e) (fst (perform c w)) [Called c]
    end.
Proof.
  unfold bind, call. destruct (perform c w) as [w1 [e |]]; reflexivity.
Qed.

Lemma call_run (c : Call) (w : World) :
  call c w
  = mkRun (match snd (perform c w) with
           | None => Returned tt
           | Some e => Raised e
           end)
          (fst (perform c w)) [Called c].
Proof. unfold call. destruct (perform c w) as [w1 [e |]]; reflexivity. Qed.

Lemma execute_one (c : Command) (w : World) :
  CompoundCommand_execute [c] w = call (Execute c) w.
Proof.
  unfold CompoundCommand_execute; simpl.
  unfold bind. rewrite call_run; simpl.
  destruct (snd (perform (Execute c) w)); simpl; try reflexivity.
Qed.

Ltac step :=
  repeat first
    [ rewrite bind_observe
    | rewrite bind_ret_l
    | rewrite bind_print
    | rewrite bind_raise ].

(** ** The binstore *)

Lemma new_takes_configured_path (repo : GitRepo) (w : World) (p : string) :
  config_get w "binstore" "path" = Some p ->
  p <> "" ->
  FilesystemBinstore_new repo w
  = mkRun (Returned
             (mkBinstore repo (Py.join (repo_path repo) [".git"; "binstore"]) p))
          w [].
Proof.
  intros Hp Hne. unfold FilesystemBinstore_new. rewrite bind_observe, Hp.
  apply String.eqb_neq in Hne. now rewrite Hne.
Qed.

Lemma is_binstore_link_outside (self : FilesystemBinstore) (w : World)
      (filename target : string) :
  os_readlink w filename = Some target ->
  Py.startswith target (path self) = false ->
  is_binstore_link self filename w = mkRun (Returned false) w [].
Proof.
  intros Ht Hp. unfold is_binstore_link. rewrite bind_observe, Ht.
  now rewrite Hp.
Qed.

Lemma is_binstore_link_inside (self : FilesystemBinstore) (w : World)
      (filename target : string) :
  os_readlink w filename = Some target ->
  Py.startswith target (path self) = true ->
  is_binstore_link self filename w
  = mkRun (Raised (AttributeError "has_file")) w [].
Proof.
  intros Ht Hp. unfold is_binstore_link. rewrite bind_observe, Ht.
  now rewrite Hp.
Qed.

(** C8, what the code does.  [is_binstore_link] answers [False] on a path
    that is no symbolic link and on a link whose target does not start
    with the store path.  On a link whose target starts with the store
    path it looks up [self.has_file], which no class defines, and raises
    [AttributeError], whether the target is in the store or not: it never
    answers [True]. *)
Theorem is_binstore_link_never_true (self : FilesystemBinstore) (w : World)
        (filename : string) :
  (os_readlink w filename = None ->
   is_binstore_link self filename w = mkRun (Returned false) w [])
  /\ (forall target,
        os_readlink w filename = Some target ->
        Py.startswith target (path self) = false ->
        is_binstore_link self filename w = mkRun (Returned false) w [])
  /\ (forall target,
        os_readlink w filename = Some target ->
        Py.startswith target (path self) = true ->
        is_binstore_link self filename w
        = mkRun (Raised (AttributeError "has_file")) w [])
  /\ outcome (is_binstore_link self filename w) <> Returned true.
Proof.
  split; [| split; [| split]].
  - intro Hn. unfold is_binstore_link. now rewrite bind_observe, Hn.
  - intros target. apply is_binstore_link_outside.
  - intros target. apply is_binstore_link_inside.
  - destruct (os_readlink w filename) as [target |] eqn:Ht.
    + destruct (Py.startswith target (path self)) eqn:Hp.
      * rewrite (is_binstore_link_inside _ _ _ _ Ht Hp). discriminate.
      * rewrite (is_binstore_link_outside _ _ _ _ Ht Hp). discriminate.
    + unfold is_binstore_link. rewrite bind_observe, Ht. discriminate.
Qed.

(** C9.  [init] raises when [git-bin.binstorebase] is not configured, and
    so does the constructor when [binstore.path] is not configured either;
    nothing has been called by then.  When [binstore.path] is configured
    the constructor takes it and skips [init]: no directory, no link, no
    configuration entry is made. *)
Theorem binstore_initialisation (repo : GitRepo) (w : World) :
  (Py.truthy (config_get w "git-bin" "binstorebase") = false ->
   forall local,
     FilesystemBinstore_init repo local w
     = mkRun (Raised (PyException no_binstorebase_msg)) w [])
  /\ (Py.truthy (config_get w "binstore" "path") = false ->
      Py.truthy (config_get w "git-bin" "binstorebase") = false ->
      FilesystemBinstore_new repo w
      = mkRun (Raised (PyException no_binstorebase_msg)) w [])
  /\ (forall p,
        config_get w "binstore" "path" = Some p ->
        p <> "" ->
        FilesystemBinstore_new repo w
        = mkRun (Returned
                   (mkBinstore repo
                      (Py.join (repo_path repo) [".git"; "binstore"]) p))
                w []).
Proof.
  assert (Hinit : Py.truthy (config_get w "git-bin" "binstorebase") = false ->
                  forall local,
                    FilesystemBinstore_init repo local w
                    = mkRun (Raised (PyException no_binstorebase_msg)) w []).
  { intros Hbase local. unfold FilesystemBinstore_init. step.
    destruct (config_get w "git-bin" "binstorebase") as [base |];
      [| reflexivity].
    simpl in Hbase. apply negb_false_iff in Hbase. now rewrite Hbase. }
  split; [exact Hinit |]. split.
  - intros Hpath Hbase. unfold FilesystemBinstore_new. step.
    destruct (config_get w "binstore" "path") as [p |].
    + simpl in Hpath. apply negb_false_iff in Hpath. rewrite Hpath.
      unfold bind. now rewrite Hinit.
    + unfold bind. now rewrite Hinit.
  - intros p Hp Hne. now apply new_takes_configured_path.
Qed.

(** C7, as the code has it.  [add_file] takes the digest of the file and
    names the target [localpath/digest], where [localpath] is the alias
    [.git/binstore] inside the repository (not the store path).  The calls
    it makes are a prefix of: move the file to the target, link the file
    name to the target, chmod the target to read-only for owner, group
    and other, stage the file name; when it returns it has made all four,
    in this order; it ends by returning or by the error of a step.  The
    mode it sets is 0444, which has no write bit. *)
Theorem add_file_pipeline (self : FilesystemBinstore) (filename : string)
        (w : World) :
  let target := Py.join (localpath self) [md5_file w filename] in
  let steps :=
    [ SafeMoveFileCommand filename target None;
      LinkToFileCommand filename target;
      ChmodCommand read_only_mode target;
      GitAddCommand (bs_gitrepo self) filename ] in
  (exists k,
     trace (FilesystemBinstore_add_file self filename w)
     = map (fun c => Called (Execute c)) (firstn k steps))
  /\ (outcome (FilesystemBinstore_add_file self filename w) = Returned tt ->
      trace (FilesystemBinstore_add_file self filename w)
      = map (fun c => Called (Execute c)) steps)
  /\ (outcome (FilesystemBinstore_add_file self filename w) = Returned tt
      \/ exists e,
           outcome (FilesystemBinstore_add_file self filename w) = Raised e)
  /\ read_only_mode = 292
  /\ Z.land read_only_mode write_bits = 0.
Proof.
  intros target steps. unfold FilesystemBinstore_add_file.
  rewrite bind_observe. fold target. fold steps.
  split; [apply execute_prefix |].
  split; [apply execute_returned |].
  split; [apply execute_outcome |].
  split; reflexivity.
Qed.

(** ** Dispatch *)

(** C10.  The parser lists [edit] among its choices, a [GitBin] has no
    attribute of that name, and dispatching it raises
    [UnknownCommandException] without a call or a print.  [edit] is the
    only choice of the parser the orchestrator cannot dispatch. *)
Theorem dispatch_edit_unknown (fuel : nat) (self : GitBin) (args : Args)
        (w : World) :
  parser_accepts "edit" = true
  /\ GitBin_hasattr "edit" = false
  /\ GitBin_dispatch_command fuel self "edit" args w
     = mkRun (Raised (UnknownCommandException
                        "The command 'edit' is not known to git-bin"))
             w []
  /\ (forall name,
        parser_accepts name = true -> GitBin_hasattr name = false ->
        name = "edit").
Proof.
  split; [reflexivity |]. split; [reflexivity |]. split; [reflexivity |].
  intros name Hacc Hattr.
  unfold parser_accepts, command_choices in Hacc. simpl in Hacc.
  unfold GitBin_hasattr, GitBin_getattr in Hattr.
  destruct (String.eqb_spec name "edit") as [E | _]; [exact E |].
  destruct (String.eqb_spec name "add") as [_ | _]; [discriminate |].
  destruct (String.eqb_spec name "reset") as [_ | _]; [discriminate |].
  destruct (String.eqb_spec name "checkout_dashdash") as [_ | _];
    discriminate.
Qed.

Lemma dispatch_no_attribute (fuel : nat) (self : GitBin) (name : string)
      (args : Args) (w : World) :
  GitBin_hasattr name = false ->
  GitBin_dispatch_command fuel self name args w
  = mkRun (Raised (UnknownCommandException (unknown_command_msg name))) w [].
Proof.
  unfold GitBin_hasattr, GitBin_dispatch_command.
  destruct (GitBin_getattr name); [discriminate | reflexivity].
Qed.

(** C5, as the code has it.  A command name outside the parser's choices
    makes the script fail before anything is called or printed: the
    argument parser exits with status 2 and [main] does not run.  The
    failure is the parser's exit and not [UnknownCommandException]; that
    one is raised by [dispatch_command], for a name that is no attribute
    of the orchestrator, and [dispatch_command] has called nothing by
    then. *)
Theorem unknown_command_rejected (fuel : nat) (name : string) (flag : bool)
        (names : list string) (w : World) :
  parser_accepts name = false ->
  script fuel name flag names w = mkRun (Raised (SystemExit 2)) w []
  /\ (GitBin_hasattr name = false ->
      forall self args,
        GitBin_dispatch_command fuel self name args w
        = mkRun (Raised (UnknownCommandException (unknown_command_msg name)))
                w []).
Proof.
  intro Hrej. split.
  - unfold script. now rewrite Hrej.
  - intros Hattr self args. now apply dispatch_no_attribute.
Qed.

(** ** reset and checkout_dashdash *)

Lemma reset_skips_unstaged (self : GitBin) (filename : string) (w : World) :
  fully_staged (status w filename) = false ->
  GitBin_reset_one self filename w
  = mkRun (Returned tt) w [Printed (reset_hint filename)].
Proof.
  intro Hst. unfold GitBin_reset_one. step. now rewrite Hst.
Qed.

Lemma checkout_skips_staged (self : GitBin) (filename : string) (w : World) :
  fully_staged (status w filename) = true ->
  GitBin_checkout_dashdash_one self filename w
  = mkRun (Returned tt) w [Printed (checkout_hint filename)].
Proof.
  intro Hst. unfold GitBin_checkout_dashdash_one. step. now rewrite Hst.
Qed.

(** C2.  On a file whose status is not fully staged, [reset] prints its
    hint and does nothing else; on a file whose status is fully staged,
    [checkout_dashdash] prints its hint and does nothing else.  This holds
    for a file anywhere in a batch, with the status read when its turn
    comes.  No file in any world makes both commands call something. *)
Theorem reset_checkout_disjoint (self : GitBin) (filename : string)
        (w : World) :
  (fully_staged (status w filename) = false ->
   GitBin_reset_one self filename w
   = mkRun (Returned tt) w [Printed (reset_hint filename)])
  /\ (fully_staged (status w filename) = true ->
      GitBin_checkout_dashdash_one self filename w
      = mkRun (Returned tt) w [Printed (checkout_hint filename)])
  /\ (forall before after,
        fully_staged
          (status (final (for_each before (GitBin_reset_one self) w))
                  filename) = false ->
        for_each (before ++ filename :: after) (GitBin_reset_one self) w
        = (for_each before (GitBin_reset_one self) ;;
           print (reset_hint filename) ;;
           for_each after (GitBin_reset_one self)) w)
  /\ (forall before after,
        fully_staged
          (status (final (for_each before (GitBin_checkout_dashdash_one self) w))
                  filename) = true ->
        for_each (before ++ filename :: after)
                 (GitBin_checkout_dashdash_one self) w
        = (for_each before (GitBin_checkout_dashdash_one self) ;;
           print (checkout_hint filename) ;;
           for_each after (GitBin_checkout_dashdash_one self)) w)
  /\ (mutations (trace (GitBin_reset_one self filename w)) <> [] ->
      mutations (trace (GitBin_checkout_dashdash_one self filename w)) = []).
Proof.
  split; [apply reset_skips_unstaged |].
  split; [apply checkout_skips_staged |].
  split; [| split].
  - intros before after Hst. apply for_each_middle.
    now rewrite reset_skips_unstaged.
  - intros before after Hst. apply for_each_middle.
    now rewrite checkout_skips_staged.
  - destruct (fully_staged (status w filename)) eqn:Hst.
    + intros _. now rewrite checkout_skips_staged.
    + rewrite reset_skips_unstaged by assumption. simpl. congruence.
Qed.

(** C3, what the code does.  On a fully staged file [reset] unstages it
    and reads its status again; the test for the copy then looks up
    [self.binstore.has], which no class defines, and [reset] raises
    [AttributeError]: the unstage is the only call made, nothing is
    copied back, whatever the new status shows. *)
Theorem reset_staged_raises (self : GitBin) (filename : string) (w : World) :
  fully_staged (status w filename) = true ->
  snd (perform (RepoUnstage filename) w) = None ->
  GitBin_reset_one self filename w
  = mkRun (Raised (AttributeError "has"))
          (fst (perform (RepoUnstage filename) w))
          [Called (RepoUnstage filename)].
Proof.
  intros Hst Hok. unfold GitBin_reset_one. step. rewrite Hst. cbn [negb].
  rewrite bind_call, Hok. cbv zeta. step. reflexivity.
Qed.

(** C6, what the code does.  On a file whose status is not fully staged,
    has a bit of the changed mask and shows a type change,
    [checkout_dashdash] looks up [self.binstore.has], which no class
    defines, and raises [AttributeError]: no just-in-case copy is made
    and the file is not restored. *)
Theorem checkout_typechange_raises (self : GitBin) (filename : string)
        (w : World) :
  fully_staged (status w filename) = false ->
  Py.nonzero (Z.land (status w filename) STATUS_CHANGED_MASK) = true ->
  Py.nonzero (Z.land (status w filename) STATUS_TYPECHANGED) = true ->
  GitBin_checkout_dashdash_one self filename w
  = mkRun (Raised (AttributeError "has")) w [].
Proof.
  intros Hst Hch Hty. unfold GitBin_checkout_dashdash_one. step.
  rewrite Hst, Hch. cbn [negb]. rewrite Hty.
  rewrite !bind_assoc. unfold FilesystemBinstore_has. now rewrite bind_raise.
Qed.

(** ** add *)

Lemma add_one_symlink (self : GitBin) (recurse : list string -> M unit)
      (n : nat) (filename target : string) (w : World) :
  os_path_exists w filename = true ->
  os_readlink w filename = Some target ->
  GitBin_add_one self recurse n filename w
  = mkRun (Raised (AttributeError "has_file")) w
          [Printed (Line (Py.tab ++ filename))].
Proof.
  intros Hex Ht. unfold GitBin_add_one. step. rewrite Hex. cbn [negb].
  step. rewrite Ht. rewrite !bind_assoc. unfold FilesystemBinstore_has_file.
  now rewrite bind_raise.
Qed.

(** C1, what the code does.  On a batch whose first file exists and is a
    link whose target starts with the store path, [is_binstore_link]
    raises [AttributeError] instead of answering [True], and [add] does
    not get as far as asking it: after the header and the file name it
    looks up [self.binstore.has_file] and raises [AttributeError].
    Nothing has been called and the world is as it was, but [add] has not
    returned and the rest of the batch is not looked at. *)
Theorem add_store_link_raises (fuel : nat) (self : GitBin)
        (filenames rest : list string) (filename target : string)
        (w : World) :
  expand_filenames w filenames = filename :: rest ->
  os_path_exists w filename = true ->
  os_readlink w filename = Some target ->
  Py.startswith target (path (binstore self)) = true ->
  is_binstore_link (binstore self) filename w
  = mkRun (Raised (AttributeError "has_file")) w []
  /\ GitBin_add (S fuel) self filenames w
     = mkRun (Raised (AttributeError "has_file")) w
             [ Printed (Header "GitBin.add" (filename :: rest));
               Printed (Line (Py.tab ++ filename)) ].
Proof.
  intros Hexp Hex Ht Hp. split.
  - now apply is_binstore_link_inside with (target := target).
  - cbn [GitBin_add]. step. rewrite Hexp. cbn [for_each].
    unfold bind. now rewrite (add_one_symlink _ _ _ _ target w Hex Ht).
Qed.

(** C4, what the code does.  On a file that exists and is a symbolic
    link, [add] prints the file name and then looks up
    [self.binstore.has_file], which no class defines: it raises
    [AttributeError] and has called nothing.  It does not print
    [islink: DO_GIT_ADD], does not go on to the next file, and does not
    call [gitrepo.add]; the branch it would have taken for a target
    outside the store only prints that line. *)
Theorem add_symlink_raises (self : GitBin) (recurse : list string -> M unit)
        (n : nat) (filename target : string) (w : World) :
  os_path_exists w filename = true ->
  os_readlink w filename = Some target ->
  GitBin_add_one self recurse n filename w
  = mkRun (Raised (AttributeError "has_file")) w
          [Printed (Line (Py.tab ++ filename))]
  /\ mutations (trace (GitBin_add_one self recurse n filename w)) = [].
Proof.
  intros Hex Ht. rewrite (add_one_symlink _ _ _ _ target w Hex Ht).
  split; reflexivity.
Qed.

End Properties.

(** * The properties on the sample repository *)

(** C8 on the sample: [logo.png] is a link to an object the store holds,
    [docs] is a link that points outside the store. *)
Lemma is_binstore_link_never_true_sample :
  is_binstore_link Sample.store "logo.png" Sample.tracked
  = mkRun (Raised (AttributeError "has_file")) Sample.tracked []
  /\ is_binstore_link Sample.store "docs" Sample.tracked
     = mkRun (Returned false) Sample.tracked [].
Proof.
  split.
  - apply (proj1 (proj2 (proj2 (is_binstore_link_never_true
                                  Sample.store Sample.tracked "logo.png")))
             ("/srv/binstore/repo/" ++ Sample.logo_md5)); reflexivity.
  - apply (proj1 (proj2 (is_binstore_link_never_true
                           Sample.store Sample.tracked "docs"))
             "/usr/share/doc"); reflexivity.
Defined.

(** C9 on the sample: nothing configured, and the store path configured. *)
Lemma binstore_initialisation_sample :
  FilesystemBinstore_new Sample.repo Sample.unconfigured
  = mkRun (Raised (PyException no_binstorebase_msg)) Sample.unconfigured []
  /\ FilesystemBinstore_new Sample.repo Sample.tracked
     = mkRun (Returned Sample.store) Sample.tracked [].
Proof.
  split.
  - apply (proj1 (proj2 (binstore_initialisation Sample.repo Sample.unconfigured)));
      reflexivity.
  - apply (proj2 (proj2 (binstore_initialisation Sample.repo Sample.tracked))
             "/srv/binstore/repo"); [reflexivity | discriminate].
Defined.

(** C7 on the sample: every step succeeds, all four are made. *)
Lemma add_file_pipeline_sample :
  mutations (trace (FilesystemBinstore_add_file Sample.store "big.bin" Sample.fresh))
  = [ Execute (SafeMoveFileCommand "big.bin"
                 "/work/repo/.git/binstore/9e107d9d372bb6826bd81d3542a419d6" None);
      Execute (LinkToFileCommand "big.bin"
                 "/work/repo/.git/binstore/9e107d9d372bb6826bd81d3542a419d6");
      Execute (ChmodCommand 292
                 "/work/repo/.git/binstore/9e107d9d372bb6826bd81d3542a419d6");
      Execute (GitAddCommand Sample.repo "big.bin") ].
Proof.
  rewrite (proj1 (proj2 (add_file_pipeline Sample.store "big.bin" Sample.fresh)));
    reflexivity.
Defined.

(** C7 as the spec words it fails: the store built for the fresh clone
    has the path [/srv/binstore/repo], and [add_file] moves the file to
    the alias [/work/repo/.git/binstore], not under that path. *)
Lemma add_file_target_is_local_alias :
  outcome (FilesystemBinstore_new Sample.repo Sample.fresh)
  = Returned Sample.store
  /\ spec_insert_steps Sample.store Sample.fresh "big.bin"
     = [ Execute (SafeMoveFileCommand "big.bin"
                    "/srv/binstore/repo/9e107d9d372bb6826bd81d3542a419d6" None);
         Execute (LinkToFileCommand "big.bin"
                    "/srv/binstore/repo/9e107d9d372bb6826bd81d3542a419d6");
         Execute (ChmodCommand 292
                    "/srv/binstore/repo/9e107d9d372bb6826bd81d3542a419d6");
         Execute (GitAddCommand Sample.repo "big.bin") ]
  /\ mutations (trace (FilesystemBinstore_add_file Sample.store "big.bin" Sample.fresh))
     <> spec_insert_steps Sample.store Sample.fresh "big.bin".
Proof.
  split; [reflexivity |]. split; [reflexivity |].
  vm_compute. intro Heq. discriminate Heq.
Qed.

(** C10 on the parser's own list: [edit] is accepted and not dispatchable. *)
Lemma dispatch_edit_unknown_sample :
  GitBin_dispatch_command 1 Sample.gitbin "edit"
    (mkArgs "edit" false ["logo.png"]) Sample.tracked
  = mkRun (Raised (UnknownCommandException
                     "The command 'edit' is not known to git-bin"))
          Sample.tracked [].
Proof.
  exact (proj1 (proj2 (proj2
           (dispatch_edit_unknown 1 Sample.gitbin
              (mkArgs "edit" false ["logo.png"]) Sample.tracked)))).
Defined.

(** C5 on the sample: a name the parser does not list, on a fresh
    clone. *)
Lemma unknown_command_rejected_sample :
  script 1 "frobnicate" false ["big.bin"] Sample.fresh
  = mkRun (Raised (SystemExit 2)) Sample.fresh [].
Proof.
  apply (proj1 (unknown_command_rejected 1 "frobnicate" false ["big.bin"]
                                         Sample.fresh eq_refl)).
Defined.

(** C5 as the spec words it fails: the script on a name outside the
    known set fails without a call, but with the parser's exit; no
    [UnknownCommandException] is raised. *)
Lemma unknown_command_is_parser_exit :
  parser_accepts "frobnicate" = false
  /\ outcome (script 1 "frobnicate" false ["big.bin"] Sample.fresh)
     = Raised (SystemExit 2)
  /\ outcome (script 1 "frobnicate" false ["big.bin"] Sample.fresh)
     <> Raised (UnknownCommandException (unknown_command_msg "frobnicate"))
  /\ trace (script 1 "frobnicate" false ["big.bin"] Sample.fresh) = [].
Proof.
  split; [reflexivity |]. split; [reflexivity |]. split; [| reflexivity].
  vm_compute. discriminate.
Qed.

(** C2 on the sample: [logo.png] is staged, so [checkout_dashdash] leaves
    it alone; once replaced and unstaged, [reset] leaves it alone. *)
Lemma reset_checkout_disjoint_sample :
  GitBin_checkout_dashdash_one Sample.gitbin "logo.png" Sample.staged_logo
  = mkRun (Returned tt) Sample.staged_logo [Printed (checkout_hint "logo.png")]
  /\ GitBin_reset_one Sample.gitbin "logo.png" (Sample.replaced 16)
     = mkRun (Returned tt) (Sample.replaced 16) [Printed (reset_hint "logo.png")].
Proof.
  split.
  - apply (proj1 (proj2 (reset_checkout_disjoint Sample.gitbin "logo.png"
                           Sample.staged_logo))).
    reflexivity.
  - apply (proj1 (reset_checkout_disjoint Sample.gitbin "logo.png"
                    (Sample.replaced 16))).
    reflexivity.
Defined.

(** C3 on the sample: [logo.png] is staged, git reports it untracked
    once unstaged, and no copy is made. *)
Lemma reset_staged_raises_sample :
  outcome (GitBin_reset_one Sample.gitbin "logo.png" Sample.staged_logo)
  = Raised (AttributeError "has")
  /\ status (final (GitBin_reset_one Sample.gitbin "logo.png" Sample.staged_logo))
            "logo.png"
     = STATUS_UNTRACKED
  /\ trace (GitBin_reset_one Sample.gitbin "logo.png" Sample.staged_logo)
     = [Called (RepoUnstage "logo.png")].
Proof.
  rewrite (reset_staged_raises Sample.gitbin "logo.png" Sample.staged_logo);
    repeat split; reflexivity.
Defined.

(** C6 on the sample: the replaced file, not staged, type changed. *)
Lemma checkout_typechange_raises_sample :
  GitBin_checkout_dashdash_one Sample.gitbin "logo.png" (Sample.replaced 16)
  = mkRun (Raised (AttributeError "has")) (Sample.replaced 16) [].
Proof.
  apply (checkout_typechange_raises Sample.gitbin "logo.png"
                                    (Sample.replaced 16)); reflexivity.
Defined.

(** An absolute file name takes the copy out of [/tmp]: [os.path.join]
    drops what precedes an absolute component. *)
Example justincase_absolute_name :
  justincase_filename "/work/repo/logo.png" "9e107d9d372bb6826bd81d3542a419d6"
  = "/work/repo/logo.png.9e107d9d372bb6826bd81d3542a419d6.justincase".
Proof. reflexivity. Qed.

(** C1 on the sample: [logo.png] is a link to an object the store
    holds. *)
Lemma add_store_link_raises_sample :
  GitBin_add 1 Sample.gitbin ["logo.png"; "notes.lnk"] Sample.tracked
  = mkRun (Raised (AttributeError "has_file")) Sample.tracked
          [ Printed (Header "GitBin.add" ["logo.png"; "notes.lnk"]);
            Printed (Line (Py.tab ++ "logo.png")) ].
Proof.
  refine (proj2 (add_store_link_raises
                   0 Sample.gitbin ["logo.png"; "notes.lnk"] ["notes.lnk"]
                   "logo.png" ("/srv/binstore/repo/" ++ Sample.logo_md5)
                   Sample.tracked _ _ _ _)); reflexivity.
Defined.

(** C4 on the sample: [docs] is a link to a directory outside the
    store. *)
Lemma add_symlink_raises_sample :
  GitBin_add_one Sample.gitbin (GitBin_add 0 Sample.gitbin) 0 "docs"
                 Sample.tracked
  = mkRun (Raised (AttributeError "has_file")) Sample.tracked
          [Printed (Line (Py.tab ++ "docs"))].
Proof.
  refine (proj1 (add_symlink_raises Sample.gitbin (GitBin_add 0 Sample.gitbin)
                                    0 "docs" "/usr/share/doc" Sample.tracked
                                    _ _)); reflexivity.
Defined.

(** * Further properties of the script *)

Section MoreProperties.

Context {World : Type} `{Collab World}.

Ltac run :=
  repeat first
    [ rewrite bind_observe
    | rewrite bind_ret_l
    | rewrite bind_print
    | rewrite bind_raise ].

(** ** Calls of a composed run *)

Lemma mutations_app (t1 t2 : list Event) :
  mutations (t1 ++ t2) = (mutations t1 ++ mutations t2)%list.
Proof.
  induction t1 as [| [c | o] t1 IH]; simpl;
    [reflexivity | now f_equal | exact IH].
Qed.

Lemma calls_bind (A B : Type) (P : Call -> bool) (m : M A) (k : A -> M B)
      (w : World) :
  forallb P (mutations (trace (m w))) = true ->
  (forall a w1, forallb P (mutations (trace (k a w1))) = true) ->
  forallb P (mutations (trace (bind m k w))) = true.
Proof.
  intros Hm Hk. unfold bind.
  destruct (m w) as [[a | e | ] w1 t1]; simpl in *; try assumption.
  rewrite mutations_app, forallb_app, Hm. simpl. apply Hk.
Qed.

Lemma calls_for_each (A : Type) (P : Call -> bool) (body : A -> M unit)
      (l : list A) (w : World) :
  (forall x w1, In x l -> forallb P (mutations (trace (body x w1))) = true) ->
  forallb P (mutations (trace (for_each l body w))) = true.
Proof.
  revert w; induction l as [| x l IH]; intros w Hb.
  - reflexivity.
  - change (for_each (x :: l) body) with (bind (body x) (fun _ => for_each l body)).
    apply calls_bind.
    + apply Hb. now left.
    + intros _ w1. apply IH. intros y w2 Hy. apply Hb. now right.
Qed.

Lemma calls_call (P : Call -> bool) (c : Call) (w : World) :
  P c = true -> forallb P (mutations (trace (call c w))) = true.
Proof. intro Hc. rewrite call_run. simpl. now rewrite Hc. Qed.

Lemma calls_execute (P : Call -> bool) (steps : list Command) (w : World) :
  forallb (fun c => P (Execute c)) steps = true ->
  forallb P (mutations (trace (CompoundCommand_execute steps w))) = true.
Proof.
  intro Hs. unfold CompoundCommand_execute. apply calls_for_each.
  intros c w1 Hc. apply calls_call.
  rewrite forallb_forall in Hs. now apply Hs.
Qed.

Lemma calls_walk (P : Call -> bool) (n : nat)
      (body : string -> list string -> list string -> M unit) :
  (forall root dirs names w,
     forallb P (mutations (trace (body root dirs names w))) = true) ->
  forall top w, forallb P (mutations (trace (os_walk n body top w))) = true.
Proof.
  intro Hb. induction n as [| n IH]; intros top w.
  - reflexivity.
  - cbn [os_walk]. rewrite bind_observe. apply calls_bind; [apply Hb |].
    intros _ w1. apply calls_for_each. intros name w2 _.
    rewrite bind_observe. destruct (os_path_islink w2 (Py.join top [name])).
    + reflexivity.
    + apply IH.
Qed.

Lemma bind_pure (A B : Type) (m : M A) (k : A -> M B) (a : A) (w : World) :
  m w = mkRun (Returned a) w [] -> bind m k w = k a w.
Proof. intro Hm. unfold bind. rewrite Hm. simpl. apply run_eta. Qed.

Lemma is_binstore_link_no_link (self : FilesystemBinstore) (w : World)
      (filename : string) :
  os_readlink w filename = None ->
  is_binstore_link self filename w = mkRun (Returned false) w [].
Proof.
  intro Hn. unfold is_binstore_link. now rewrite bind_observe, Hn.
Qed.

Lemma add_file_calls (self : FilesystemBinstore) (filename : string)
      (w : World) :
  forallb add_call
          (mutations (trace (FilesystemBinstore_add_file self filename w)))
  = true.
Proof.
  unfold FilesystemBinstore_add_file. rewrite bind_observe.
  apply calls_execute. reflexivity.
Qed.

Lemma add_one_calls (self : GitBin) (recurse : list string -> M unit)
      (n : nat) (filename : string) (w : World) :
  (forall l w1, forallb add_call (mutations (trace (recurse l w1))) = true) ->
  forallb add_call
          (mutations (trace (GitBin_add_one self recurse n filename w)))
  = true.
Proof.
  intro Hrec. unfold GitBin_add_one.
  rewrite bind_print. cbn [trace mutations]. rewrite bind_observe.
  destruct (negb (os_path_exists w filename)); [reflexivity |].
  rewrite bind_observe.
  destruct (os_readlink w filename) as [target |] eqn:Hlink.
  { rewrite bind_assoc. unfold FilesystemBinstore_has_file.
    now rewrite bind_raise. }
  rewrite bind_ret_l, bind_observe.
  destruct (negb (is_file_binary w filename)); [now apply calls_call |].
  rewrite (bind_pure _ _ _ _ false w (is_binstore_link_no_link _ _ _ Hlink)).
  rewrite bind_observe.
  destruct (os_path_isdir w filename); [| apply add_file_calls].
  rewrite bind_print. cbn [trace mutations].
  apply calls_walk. intros root dirs names w1.
  apply calls_bind.
  - destruct dirs; [reflexivity | apply Hrec].
  - intros _ w2. destruct names; [reflexivity | apply Hrec].
Qed.

(** X1.  Whatever the batch, the world and the depth of the recursion,
    [add] only ever calls [gitrepo.add] and the four steps of [add_file]
    (move, link, chmod 0444, git add): it never unstages, restores,
    copies, makes a directory or writes the configuration. *)
Theorem add_calls_only (fuel : nat) (self : GitBin) (filenames : list string)
        (w : World) :
  forallb add_call (mutations (trace (GitBin_add fuel self filenames w)))
  = true.
Proof.
  revert filenames w. induction fuel as [| n IH]; intros filenames w.
  - reflexivity.
  - cbn [GitBin_add]. rewrite bind_observe, bind_print.
    cbn [trace mutations]. apply calls_for_each.
    intros f w1 _. apply add_one_calls. apply IH.
Qed.

(** ** Batches *)

Lemma bind_ret_r (m : M unit) (w : World) :
  bind m (fun _ => ret tt) w = m w.
Proof.
  unfold bind, ret.
  destruct (m w) as [[[] | e | ] w1 t1]; simpl; try reflexivity.
  now rewrite app_nil_r.
Qed.

(** A file on which the body raises ends the loop: the files after it
    are not looked at. *)
Lemma for_each_stops (A : Type) (body : A -> M unit) (before after : list A)
      (x : A) (w : World) (e : Exn) :
  outcome (for_each before body w) = Returned tt ->
  outcome (body x (final (for_each before body w))) = Raised e ->
  for_each (before ++ x :: after) body w
  = mkRun (Raised e)
          (final (body x (final (for_each before body w))))
          (trace (for_each before body w)
           ++ trace (body x (final (for_each before body w)))).
Proof.
  intros Hb Hx. rewrite (for_each_middle _ body (body x)) by reflexivity.
  unfold bind at 1. rewrite Hb. cbn zeta. unfold bind. now rewrite Hx.
Qed.

Lemma partition_no_dirs (A : Type) (p : A -> bool) (l : list A) :
  forallb (fun x => negb (p x)) l = true -> partition p l = ([], l).
Proof.
  induction l as [| x l IH]; simpl; [reflexivity |].
  intro Hl. apply andb_prop in Hl. destruct Hl as [Hx Hl].
  rewrite (IH Hl). apply negb_true_iff in Hx. now rewrite Hx.
Qed.

(** [os.walk] on a directory that holds no directory yields once. *)
Lemma walk_flat (n : nat)
      (body : string -> list string -> list string -> M unit)
      (top : string) (w : World) :
  forallb (fun name => negb (os_path_isdir w (Py.join top [name])))
          (os_listdir w top) = true ->
  os_walk (S n) body top w = body top [] (os_listdir w top) w.
Proof.
  intro Hflat. cbn [os_walk]. rewrite bind_observe.
  rewrite (partition_no_dirs _ _ _ Hflat). cbn [fst snd for_each].
  apply bind_ret_r.
Qed.

(** A path that exists, is no symbolic link, is sniffed as binary and is
    no directory goes to [add_file]. *)
Lemma add_one_regular_binary (self : GitBin)
      (recurse : list string -> M unit) (n : nat) (filename : string)
      (w : World) :
  os_path_exists w filename = true ->
  os_readlink w filename = None ->
  is_file_binary w filename = true ->
  os_path_isdir w filename = false ->
  GitBin_add_one self recurse n filename w
  = (print (Line (Py.tab ++ filename)) ;;
     FilesystemBinstore_add_file (binstore self) filename) w.
Proof.
  intros Hex Hlink Hbin Hdir. unfold GitBin_add_one. run.
  rewrite Hex. cbn [negb]. run. rewrite Hlink. run.
  rewrite Hbin. cbn [negb].
  rewrite (bind_pure _ _ _ _ false w (is_binstore_link_no_link _ _ _ Hlink)).
  run. now rewrite Hdir.
Qed.

(** ** add, file by file *)

(** X2.  When none of the expanded names exists on disk (a pattern that
    matched nothing, a dangling link), [add] returns normally, has called
    nothing and leaves the world as it was; such names are no error. *)
Theorem add_missing_files (fuel : nat) (self : GitBin)
        (filenames : list string) (w : World) :
  (forall f, In f (expand_filenames w filenames) ->
     os_path_exists w f = false) ->
  outcome (GitBin_add (S fuel) self filenames w) = Returned tt
  /\ final (GitBin_add (S fuel) self filenames w) = w
  /\ mutations (trace (GitBin_add (S fuel) self filenames w)) = [].
Proof.
  intro Hall. cbn [GitBin_add]. run. cbn [outcome final trace mutations].
  apply for_each_quiet. intros f Hf.
  unfold GitBin_add_one. run. rewrite (Hall f Hf). repeat split.
Qed.

(** X3.  A path that exists, is no symbolic link and is not sniffed as
    binary is handed to [gitrepo.add] and to nothing else, whether it is
    a file or a directory: it is not walked and not stored, and an error
    of [gitrepo.add] is the error of [add]. *)
Theorem add_text_path_staged (self : GitBin)
        (recurse : list string -> M unit) (n : nat) (filename : string)
        (w : World) :
  os_path_exists w filename = true ->
  os_readlink w filename = None ->
  is_file_binary w filename = false ->
  GitBin_add_one self recurse n filename w
  = mkRun (match snd (perform (RepoAdd filename) w) with
           | None => Returned tt
           | Some e => Raised e
           end)
          (fst (perform (RepoAdd filename) w))
          [Printed (Line (Py.tab ++ filename)); Called (RepoAdd filename)].
Proof.
  intros Hex Hlink Hbin. unfold GitBin_add_one. run. rewrite Hex. cbn [negb].
  run. rewrite Hlink. run. rewrite Hbin. cbn [negb]. now rewrite call_run.
Qed.

(** X4.  A directory that holds no directory is walked once: after the
    two lines that announce it, [add] is called on its entries, each
    joined to the directory name, in the order [os.listdir] gives them;
    an empty directory is left alone. *)
Theorem add_flat_directory (self : GitBin) (recurse : list string -> M unit)
        (n : nat) (dir : string) (w : World) :
  os_path_exists w dir = true ->
  os_readlink w dir = None ->
  is_file_binary w dir = true ->
  os_path_isdir w dir = true ->
  forallb (fun name => negb (os_path_isdir w (Py.join dir [name])))
          (os_listdir w dir) = true ->
  GitBin_add_one self recurse (S n) dir w
  = (print (Line (Py.tab ++ dir)) ;;
     print (Line (Py.tab ++ "recursing into " ++ dir)) ;;
     match os_listdir w dir with
     | [] => ret tt
     | _ => recurse (map (fun fn => Py.join dir [fn]) (os_listdir w dir))
     end) w.
Proof.
  intros Hex Hlink Hbin Hdir Hflat. unfold GitBin_add_one. run.
  rewrite Hex. cbn [negb]. run. rewrite Hlink. run.
  rewrite Hbin. cbn [negb].
  rewrite (bind_pure _ _ _ _ false w (is_binstore_link_no_link _ _ _ Hlink)).
  run. rewrite Hdir. run.
  rewrite (walk_flat _ _ _ _ Hflat). cbv beta. now rewrite bind_ret_l.
Qed.

(** X5.  When the first step of [add_file], the move into the store,
    raises on a file of a batch, [add] stops with that error: the file
    is not linked, not chmod-ed and not staged, and the files after it
    are not looked at. *)
Theorem add_stops_at_failed_move (self : GitBin)
        (recurse : list string -> M unit) (n : nat)
        (before after : list string) (filename : string) (w : World)
        (e : Exn) :
  let body := GitBin_add_one self recurse n in
  let w1 := final (for_each before body w) in
  let target := Py.join (localpath (binstore self)) [md5_file w1 filename] in
  outcome (for_each before body w) = Returned tt ->
  os_path_exists w1 filename = true ->
  os_readlink w1 filename = None ->
  is_file_binary w1 filename = true ->
  os_path_isdir w1 filename = false ->
  snd (perform (Execute (SafeMoveFileCommand filename target None)) w1)
  = Some e ->
  outcome (for_each (before ++ filename :: after) body w) = Raised e
  /\ trace (for_each (before ++ filename :: after) body w)
     = (trace (for_each before body w)
        ++ [ Printed (Line (Py.tab ++ filename));
             Called (Execute (SafeMoveFileCommand filename target None)) ])%list.
Proof.
  intros body w1 target Hb Hex Hlink Hbin Hdir Hfail.
  assert (Hrun : body filename w1
                 = mkRun (Raised e)
                         (fst (perform (Execute (SafeMoveFileCommand
                                                   filename target None)) w1))
                         [ Printed (Line (Py.tab ++ filename));
                           Called (Execute (SafeMoveFileCommand
                                              filename target None)) ]).
  { unfold body.
    rewrite (add_one_regular_binary _ _ _ _ _ Hex Hlink Hbin Hdir).
    rewrite bind_print. unfold FilesystemBinstore_add_file.
    rewrite bind_observe. fold target.
    unfold CompoundCommand_execute. cbn [for_each].
    rewrite bind_call, Hfail. reflexivity. }
  rewrite (for_each_stops _ body before after filename w e Hb);
    fold w1; rewrite Hrun; [| reflexivity].
  split; reflexivity.
Qed.

(** ** reset and checkout_dashdash, call by call *)

Lemma reset_one_shape (self : GitBin) (filename : string) (w : World) :
  mutations (trace (GitBin_reset_one self filename w)) = []
  \/ mutations (trace (GitBin_reset_one self filename w))
     = [RepoUnstage filename]
  \/ exists src,
       mutations (trace (GitBin_reset_one self filename w))
       = [RepoUnstage filename; Execute (CopyFileCommand src filename)].
Proof.
  unfold GitBin_reset_one. run.
  destruct (fully_staged (status w filename)); cbn [negb]; [| now left].
  rewrite bind_call.
  destruct (snd (perform (RepoUnstage filename) w)); right; now left.
Qed.

(** X6.  For each file [reset] calls nothing, or unstages it, or unstages
    it and then copies onto it: a copy never comes without the unstage
    before it.  Every call of a batch is an unstage of, or a copy onto,
    one of the expanded names; [reset] never stages, restores, moves,
    links or writes the configuration. *)
Theorem reset_calls_shape (self : GitBin) (filenames : list string)
        (filename : string) (w : World) :
  (mutations (trace (GitBin_reset_one self filename w)) = []
   \/ mutations (trace (GitBin_reset_one self filename w))
      = [RepoUnstage filename]
   \/ exists src,
        mutations (trace (GitBin_reset_one self filename w))
        = [RepoUnstage filename; Execute (CopyFileCommand src filename)])
  /\ forallb (fun c => existsb (fun name => reset_call name c)
                              (expand_filenames w filenames))
             (mutations (trace (GitBin_reset self filenames w)))
     = true.
Proof.
  split; [apply reset_one_shape |].
  unfold GitBin_reset. run. cbn [trace mutations].
  apply calls_for_each. intros f w1 Hf.
  assert (Hone : forallb (reset_call f)
                         (mutations (trace (GitBin_reset_one self f w1)))
                 = true).
  { destruct (reset_one_shape self f w1) as [-> | [-> | [src ->]]];
      simpl; now rewrite ?String.eqb_refl. }
  rewrite forallb_forall in *. intros c Hc.
  apply existsb_exists. exists f. split; [exact Hf | now apply Hone].
Qed.

(** X7.  When [gitrepo.unstage] raises on a file of a batch, [reset]
    stops with that error: nothing is copied onto the file and the files
    after it are neither queried nor unstaged. *)
Theorem reset_stops_at_failed_unstage (self : GitBin)
        (before after : list string) (filename : string) (w : World)
        (e : Exn) :
  let body := GitBin_reset_one self in
  let w1 := final (for_each before body w) in
  outcome (for_each before body w) = Returned tt ->
  fully_staged (status w1 filename) = true ->
  snd (perform (RepoUnstage filename) w1) = Some e ->
  outcome (for_each (before ++ filename :: after) body w) = Raised e
  /\ trace (for_each (before ++ filename :: after) body w)
     = (trace (for_each before body w) ++ [Called (RepoUnstage filename)])%list.
Proof.
  intros body w1 Hb Hst Hfail.
  assert (Hrun : body filename w1
                 = mkRun (Raised e) (fst (perform (RepoUnstage filename) w1))
                         [Called (RepoUnstage filename)]).
  { unfold body, GitBin_reset_one. run. rewrite Hst. cbn [negb].
    now rewrite bind_call, Hfail. }
  rewrite (for_each_stops _ body before after filename w e Hb);
    fold w1; rewrite Hrun; [| reflexivity].
  split; reflexivity.
Qed.

Lemma checkout_one_run (self : GitBin) (filename : string) (w : World) :
  let st := status w filename in
  GitBin_checkout_dashdash_one self filename w
  = if fully_staged st then
      mkRun (Returned tt) w [Printed (checkout_hint filename)]
    else if negb (Py.nonzero (Z.land st STATUS_CHANGED_MASK)) then
      mkRun (Returned tt) w []
    else if Py.nonzero (Z.land st STATUS_TYPECHANGED) then
      mkRun (Raised (AttributeError "has")) w []
    else call (RepoRestore filename) w.
Proof.
  intro st. unfold GitBin_checkout_dashdash_one. run. fold st.
  destruct (fully_staged st); [reflexivity |].
  destruct (negb (Py.nonzero (Z.land st STATUS_CHANGED_MASK)));
    [reflexivity |].
  destruct (Py.nonzero (Z.land st STATUS_TYPECHANGED)).
  - rewrite !bind_assoc. unfold FilesystemBinstore_has.
    now rewrite bind_raise.
  - now run.
Qed.

(** X8.  [checkout_dashdash] restores a file exactly when its status is
    not fully staged, has a bit of the changed mask and shows no type
    change.  It never makes a copy: on a file it accepts whose status
    shows a type change it raises [AttributeError] before any call.  A
    file that is fully staged or has no changed bit is passed over
    without a call. *)
Theorem checkout_restores_iff (self : GitBin) (filename : string)
        (w : World) :
  let st := status w filename in
  let accepted :=
    negb (fully_staged st) && Py.nonzero (Z.land st STATUS_CHANGED_MASK) in
  let typechanged := Py.nonzero (Z.land st STATUS_TYPECHANGED) in
  let calls := mutations (trace (GitBin_checkout_dashdash_one self filename w)) in
  (In (RepoRestore filename) calls <-> accepted = true /\ typechanged = false)
  /\ (forall c, ~ In (Execute c) calls)
  /\ (accepted = false -> calls = [])
  /\ (accepted = true -> typechanged = true ->
      GitBin_checkout_dashdash_one self filename w
      = mkRun (Raised (AttributeError "has")) w []).
Proof.
  intros st accepted typechanged calls.
  unfold calls. rewrite checkout_one_run. fold st.
  unfold accepted, typechanged.
  destruct (fully_staged st);
    destruct (Py.nonzero (Z.land st STATUS_CHANGED_MASK));
    destruct (Py.nonzero (Z.land st STATUS_TYPECHANGED));
    cbn [negb andb]; rewrite ?call_run; simpl;
    (split; [| split; [| split]]); try intro c;
    intuition (try discriminate; try congruence).
Qed.

(** ** Building the binstore *)

Lemma join_nonempty (base name : string) :
  base <> "" -> Py.join base [name] <> "".
Proof.
  intro Hbase. unfold Py.join; cbn [fold_left]. unfold Py.join2.
  destruct (Py.startswith name "/") eqn:Hs.
  - intro Hn. subst name. discriminate Hs.
  - destruct base as [| a base]; [congruence |].
    destruct (String.eqb (String a base) "" || Py.endswith_slash (String a base));
      discriminate.
Qed.

Lemma new_runs_init (repo : GitRepo) (w : World) :
  Py.truthy (config_get w "binstore" "path") = false ->
  FilesystemBinstore_new repo w
  = (p <- FilesystemBinstore_init repo
            (Py.join (repo_path repo) [".git"; "binstore"]) ;;
     ret (mkBinstore repo (Py.join (repo_path repo) [".git"; "binstore"]) p)) w.
Proof.
  intro Hpath. unfold FilesystemBinstore_new. rewrite bind_observe.
  destruct (config_get w "binstore" "path") as [p |]; [| reflexivity].
  simpl in Hpath. apply negb_false_iff in Hpath. now rewrite Hpath.
Qed.

Lemma init_raises_unconfigured (repo : GitRepo) (local : string) (w : World) :
  Py.truthy (config_get w "git-bin" "binstorebase") = false ->
  FilesystemBinstore_init repo local w
  = mkRun (Raised (PyException no_binstorebase_msg)) w [].
Proof.
  intro Hbase. unfold FilesystemBinstore_init. rewrite bind_observe.
  destruct (config_get w "git-bin" "binstorebase") as [base |];
    [| reflexivity].
  simpl in Hbase. apply negb_false_iff in Hbase. now rewrite Hbase.
Qed.

(** The run of [init] with a base directory configured, step by step. *)
Lemma init_run (repo : GitRepo) (local base : string) (w : World) :
  config_get w "git-bin" "binstorebase" = Some base ->
  base <> "" ->
  let p := Py.join base [reponame repo] in
  let c1 := Execute (MakeDirectoryCommand p) in
  let c2 := Execute (LinkToFileCommand local p) in
  let c3 := ConfigSet "binstore" "path" p in
  let w1 := fst (perform c1 w) in
  let w2 := fst (perform c2 w1) in
  let w3 := fst (perform c3 w2) in
  FilesystemBinstore_init repo local w
  = match snd (perform c1 w) with
    | Some e => mkRun (Raised e) w1 [Called c1]
    | None =>
        match snd (perform c2 w1) with
        | Some e => mkRun (Raised e) w2 [Called c1; Called c2]
        | None =>
            match snd (perform c3 w2) with
            | Some e => mkRun (Raised e) w3 [Called c1; Called c2; Called c3]
            | None => mkRun (Returned p) w3 [Called c1; Called c2; Called c3]
            end
        end
    end.
Proof.
  intros Hbase Hne p c1 c2 c3 w1 w2 w3.
  unfold FilesystemBinstore_init. rewrite bind_observe, Hbase.
  apply String.eqb_neq in Hne. rewrite Hne.
  unfold CompoundCommand_execute. cbn [for_each]. fold p. fold c1. fold c2. fold c3.
  rewrite !bind_assoc, bind_call.
  destruct (snd (perform c1 w)); [reflexivity |]. fold w1. cbv zeta.
  rewrite !bind_assoc, bind_call.
  destruct (snd (perform c2 w1)); [reflexivity |]. fold w2. cbv zeta.
  rewrite bind_ret_l, bind_call.
  destruct (snd (perform c3 w2)); reflexivity.
Qed.


(** X10.  Where the configuration gives back what [config.set] wrote, a
    constructor that returned has left the repository configured:
    building the binstore again, in the world the first run left, calls
    nothing and returns the same binstore. *)
Theorem construction_idempotent (repo : GitRepo) (bs : FilesystemBinstore)
        (w : World) :
  (forall w0 s k v, config_get (fst (perform (ConfigSet s k v) w0)) s k = Some v) ->
  outcome (FilesystemBinstore_new repo w) = Returned bs ->
  FilesystemBinstore_new repo (final (FilesystemBinstore_new repo w))
  = mkRun (Returned bs) (final (FilesystemBinstore_new repo w)) [].
Proof.
  intros Hlaw Hret.
  destruct (Py.truthy (config_get w "binstore" "path")) eqn:Hpath.
  - destruct (config_get w "binstore" "path") as [p |] eqn:Hp;
      [| discriminate].
    simpl in Hpath. apply negb_true_iff, String.eqb_neq in Hpath.
    rewrite (new_takes_configured_path repo w p Hp Hpath) in *.
    simpl in *. inversion Hret; subst bs.
    now apply new_takes_configured_path.
  - rewrite (new_runs_init repo w Hpath) in *. unfold bind in *.
    destruct (Py.truthy (config_get w "git-bin" "binstorebase")) eqn:Hbase.
    + destruct (config_get w "git-bin" "binstorebase") as [base |] eqn:Hb;
        [| discriminate].
      simpl in Hbase. apply negb_true_iff, String.eqb_neq in Hbase.
      rewrite (init_run repo _ base w Hb Hbase) in *. cbv zeta in *.
      destruct (snd (perform (Execute (MakeDirectoryCommand _)) w));
        [discriminate |].
      destruct (snd (perform (Execute (LinkToFileCommand _ _)) _));
        [discriminate |].
      destruct (snd (perform (ConfigSet _ _ _) _)); [discriminate |].
      simpl in *. inversion Hret; subst bs.
      apply new_takes_configured_path; [apply Hlaw |].
      now apply join_nonempty.
    + rewrite (init_raises_unconfigured repo _ w Hbase) in Hret.
      discriminate.
Qed.

(** X11.  With neither [binstore.path] nor [git-bin.binstorebase]
    configured, [main] raises the configuration error whatever the
    command and the files are, a known command too; nothing is printed
    and nothing is called. *)
Theorem main_configuration_error (fuel : nat) (args : Args) (w : World) :
  Py.truthy (config_get w "binstore" "path") = false ->
  Py.truthy (config_get w "git-bin" "binstorebase") = false ->
  main fuel args w = mkRun (Raised (PyException no_binstorebase_msg)) w [].
Proof.
  intros Hpath Hbase. unfold main. rewrite bind_observe.
  unfold bind at 1. rewrite (new_runs_init _ w Hpath). unfold bind.
  now rewrite (init_raises_unconfigured _ _ w Hbase).
Qed.

(** X12.  With [binstore.path] configured, [main] on a command the
    parser accepts, other than [edit], is the handler of that name run
    on the files, with a binstore whose store path is the configured one
    and whose local path is [<repo>/.git/binstore]; nothing is called
    before the handler. *)
Theorem main_runs_handler (fuel : nat) (name : string) (flag : bool)
        (names : list string) (p : string) (w : World) :
  parser_accepts name = true ->
  name <> "edit" ->
  config_get w "binstore" "path" = Some p ->
  p <> "" ->
  let repo := git_GitRepo w "." in
  let gitbin :=
    mkGitBin repo
             (mkBinstore repo (Py.join (repo_path repo) [".git"; "binstore"]) p) in
  main fuel (mkArgs name flag names) w
  = if String.eqb name "add" then GitBin_add fuel gitbin names w
    else if String.eqb name "reset" then GitBin_reset gitbin names w
    else GitBin_checkout_dashdash gitbin names w.
Proof.
  intros Hacc Hne Hp Hpne repo gitbin. unfold main. rewrite bind_observe.
  fold repo. unfold bind at 1.
  rewrite (new_takes_configured_path repo w p Hp Hpne).
  cbn [outcome final trace command files]. fold gitbin.
  unfold parser_accepts, command_choices in Hacc. simpl in Hacc.
  unfold GitBin_dispatch_command, GitBin_getattr.
  destruct (String.eqb_spec name "add") as [-> | _];
    [cbn [app]; apply run_eta |].
  destruct (String.eqb_spec name "edit") as [-> | _]; [congruence |].
  destruct (String.eqb_spec name "reset") as [-> | _];
    [cbn [app]; apply run_eta |].
  destruct (String.eqb_spec name "checkout_dashdash") as [-> | _];
    [cbn [app]; apply run_eta | discriminate].
Qed.

(** ** Names in the store *)

Lemma prefix_nil (s : string) : String.prefix "" s = true.
Proof. destruct s; reflexivity. Qed.

Lemma prefix_cons (a b : ascii) (p s : string) :
  String.prefix (String a p) (String b s)
  = if ascii_dec a b then String.prefix p s else false.
Proof. reflexivity. Qed.

Lemma prefix_app (l t : string) : String.prefix l (l ++ t) = true.
Proof.
  induction l as [| a l IH]; [apply prefix_nil |].
  change (String a l ++ t) with (String a (l ++ t)). rewrite prefix_cons.
  destruct (ascii_dec a a); [exact IH | contradiction].
Qed.

(** A prefix of an extension of [l] is a prefix of [l] or extends it. *)
Lemma prefix_app_cases (p l t : string) :
  String.prefix p (l ++ t) = true ->
  String.prefix p l = true \/ String.prefix l p = true.
Proof.
  revert p; induction l as [| a l IH]; intros p Hp.
  - right. apply prefix_nil.
  - destruct p as [| b p]; [left; reflexivity |].
    change (String a l ++ t) with (String a (l ++ t)) in Hp.
    rewrite prefix_cons in Hp. rewrite !prefix_cons.
    destruct (ascii_dec b a) as [-> | Hne]; [| discriminate].
    destruct (ascii_dec a a); [| contradiction]. now apply IH.
Qed.

Lemma join_relative (l d : string) :
  Py.startswith d "/" = false ->
  Py.join l [d] = l ++ d \/ Py.join l [d] = l ++ "/" ++ d.
Proof.
  intro Hrel. unfold Py.join; cbn [fold_left]. unfold Py.join2.
  rewrite Hrel. destruct (String.eqb l "" || Py.endswith_slash l); auto.
Qed.

Lemma join_under (l d : string) :
  Py.startswith d "/" = false -> Py.startswith (Py.join l [d]) l = true.
Proof.
  intro Hrel. unfold Py.startswith.
  destruct (join_relative l d Hrel) as [-> | ->]; apply prefix_app.
Qed.

(** When neither of the alias path and the store path is a prefix of the
    other, no name under the alias starts with the store path. *)
Lemma alias_name_outside_store (self : FilesystemBinstore) (d : string) :
  Py.startswith d "/" = false ->
  Py.startswith (localpath self) (path self) = false ->
  Py.startswith (path self) (localpath self) = false ->
  Py.startswith (Py.join (localpath self) [d]) (path self) = false.
Proof.
  unfold Py.startswith at 2 3 4. intros Hrel Hlp Hpl.
  destruct (String.prefix (path self) (Py.join (localpath self) [d])) eqn:Hp;
    [| reflexivity].
  destruct (join_relative (localpath self) d Hrel) as [Hj | Hj];
    rewrite Hj in Hp; apply prefix_app_cases in Hp;
    destruct Hp as [Hp | Hp]; congruence.
Qed.

(** X13.  [add_file] links a file to [localpath/digest], and
    [is_binstore_link] looks for the store path at the start of a link's
    target: when neither of the two paths is a prefix of the other, as
    with an alias inside the repository and a store outside it, a link
    to a name [add_file] builds is not a binstore link, whatever the
    store holds. *)
Theorem alias_link_not_recognised (self : FilesystemBinstore) (w : World)
        (filename d : string) :
  Py.startswith d "/" = false ->
  os_readlink w filename = Some (Py.join (localpath self) [d]) ->
  Py.startswith (localpath self) (path self) = false ->
  Py.startswith (path self) (localpath self) = false ->
  is_binstore_link self filename w = mkRun (Returned false) w [].
Proof.
  intros Hrel Hlink Hlp Hpl. unfold is_binstore_link.
  rewrite bind_observe, Hlink.
  now rewrite (alias_name_outside_store self d Hrel Hlp Hpl).
Qed.

(** X15.  With a digest that is a plain name (no leading slash),
    everything [add_file] calls works on the file itself or on one name
    under the alias directory: the move goes from the file to a name
    under [localpath], the link is made at the file to such a name, the
    chmod is on such a name, the staging is of the file. *)
Theorem add_file_names_under_alias (self : FilesystemBinstore)
        (filename : string) (w : World) :
  Py.startswith (md5_file w filename) "/" = false ->
  forallb
    (fun c =>
       match c with
       | Execute (SafeMoveFileCommand src dst _) =>
           String.eqb src filename && Py.startswith dst (localpath self)
       | Execute (LinkToFileCommand link target) =>
           String.eqb link filename && Py.startswith target (localpath self)
       | Execute (ChmodCommand _ file) => Py.startswith file (localpath self)
       | Execute (GitAddCommand _ file) => String.eqb file filename
       | _ => false
       end)
    (mutations (trace (FilesystemBinstore_add_file self filename w)))
  = true.
Proof.
  intro Hrel. unfold FilesystemBinstore_add_file. rewrite bind_observe.
  apply calls_execute. cbn [forallb].
  now rewrite !String.eqb_refl, !(join_under _ _ Hrel).
Qed.

(** X16.  For an absolute file name the just-in-case name is the file
    name followed by the digest and [.justincase]: [os.path.join] drops
    [/tmp] before an absolute component, and the copy lands beside the
    file. *)
Theorem justincase_absolute (filename digest_ : string) :
  Py.startswith filename "/" = true ->
  justincase_filename filename digest_
  = filename ++ "." ++ digest_ ++ ".justincase".
Proof.
  intro Habs. unfold justincase_filename, Py.join; cbn [fold_left].
  unfold Py.join2.
  assert (Hs : Py.startswith (filename ++ "." ++ digest_ ++ ".justincase") "/"
               = true).
  { unfold Py.startswith in *. destruct filename as [| c rest];
      [discriminate Habs |].
    change (String c rest ++ "." ++ digest_ ++ ".justincase")
      with (String c (rest ++ "." ++ digest_ ++ ".justincase")).
    rewrite prefix_cons in *.
    destruct (ascii_dec "/" c); [apply prefix_nil | discriminate Habs]. }
  now rewrite Hs.
Qed.

(** ** edit_file *)

(** X17.  [edit_file] on a path that is no symbolic link raises
    [OSError] and has called nothing.  On a link it makes one call, the
    move of the link's target over the file name, with the file's
    directory name as third argument, and ends as that move ends; it
    never stages or unstages anything. *)
Theorem edit_file_moves_back (self : FilesystemBinstore) (filename : string)
        (w : World) :
  (os_readlink w filename = None ->
   FilesystemBinstore_edit_file self filename w = mkRun (Raised OSError) w [])
  /\ (forall target,
        os_readlink w filename = Some target ->
        FilesystemBinstore_edit_file self filename w
        = call (Execute (SafeMoveFileCommand target filename
                                             (Some (Py.dirname filename)))) w)
  /\ forallb (fun c =>
                match c with
                | Execute (SafeMoveFileCommand _ dst _) => String.eqb dst filename
                | _ => false
                end)
             (mutations (trace (FilesystemBinstore_edit_file self filename w)))
     = true.
Proof.
  unfold FilesystemBinstore_edit_file. rewrite bind_observe.
  destruct (os_readlink w filename) as [target |].
  - split; [discriminate |]. split.
    + intros t Ht. inversion Ht; subst t. apply execute_one.
    + rewrite execute_one, call_run. simpl. now rewrite String.eqb_refl.
  - split; [reflexivity |]. split; [discriminate | reflexivity].
Qed.

Lemma upto_last_slash_app (d n : string) :
  Py.upto_last_slash n = "" ->
  Py.upto_last_slash (d ++ "/" ++ n) = d ++ "/".
Proof.
  intro Hn. induction d as [| a d IH].
  - change ("" ++ "/" ++ n) with (String "/" n).
    cbn [Py.upto_last_slash]. now rewrite Hn.
  - change (String a d ++ "/" ++ n) with (String a (d ++ "/" ++ n)).
    cbn [Py.upto_last_slash]. rewrite IH.
    destruct d; reflexivity.
Qed.

Lemma all_slashes_app_slash (d : string) :
  d <> "" -> Py.endswith_slash d = false -> Py.all_slashes (d ++ "/") = false.
Proof.
  induction d as [| a d IH]; intros Hne Hend; [congruence |].
  change (String a d ++ "/") with (String a (d ++ "/")).
  cbn [Py.all_slashes].
  destruct d as [| b d].
  - unfold Py.endswith_slash in Hend. cbn in Hend. now rewrite Hend.
  - rewrite IH; [apply andb_false_r | discriminate | exact Hend].
Qed.

Lemma rstrip_slashes_app_slash (d : string) :
  d <> "" -> Py.endswith_slash d = false -> Py.rstrip_slashes (d ++ "/") = d.
Proof.
  induction d as [| a d IH]; intros Hne Hend; [congruence |].
  change (String a d ++ "/") with (String a (d ++ "/")).
  cbn [Py.rstrip_slashes].
  destruct d as [| b d].
  - unfold Py.endswith_slash in Hend. cbn in Hend.
    cbn. now rewrite Hend.
  - rewrite IH; [reflexivity | discriminate | exact Hend].
Qed.

Lemma no_slash_relative (n : string) :
  Py.upto_last_slash n = "" -> Py.startswith n "/" = false.
Proof.
  unfold Py.startswith. destruct n as [| c n]; [reflexivity |].
  cbn [Py.upto_last_slash]. rewrite prefix_cons.
  destruct (ascii_dec "/" c) as [<- | Hne]; [| reflexivity].
  destruct (Py.upto_last_slash n); discriminate.
Qed.

(** [os.path.dirname] undoes [os.path.join] of a directory name that is
    not empty and does not end in a slash with a name that has no
    slash. *)
Lemma dirname_join (d n : string) :
  d <> "" ->
  Py.endswith_slash d = false ->
  Py.upto_last_slash n = "" ->
  Py.dirname (Py.join d [n]) = d.
Proof.
  intros Hne Hend Hn.
  assert (Hj : Py.join d [n] = d ++ "/" ++ n).
  { unfold Py.join; cbn [fold_left]. unfold Py.join2.
    rewrite (no_slash_relative n Hn), Hend.
    apply String.eqb_neq in Hne. now rewrite Hne. }
  rewrite Hj. unfold Py.dirname. rewrite (upto_last_slash_app d n Hn).
  rewrite (all_slashes_app_slash d Hne Hend).
  rewrite (rstrip_slashes_app_slash d Hne Hend).
  destruct d; [congruence | reflexivity].
Qed.

(** X18.  On a file name that the directory walk of [add] builds, the
    directory joined with an entry that has no slash, [edit_file] moves
    the link's target back over that name and passes the directory
    itself as the third argument of the move: [dirname] gives back what
    [join] was given. *)
Theorem edit_file_in_walked_directory (self : FilesystemBinstore)
        (dir name target : string) (w : World) :
  dir <> "" ->
  Py.endswith_slash dir = false ->
  Py.upto_last_slash name = "" ->
  os_readlink w (Py.join dir [name]) = Some target ->
  mutations (trace (FilesystemBinstore_edit_file self (Py.join dir [name]) w))
  = [Execute (SafeMoveFileCommand target (Py.join dir [name]) (Some dir))].
Proof.
  intros Hne Hend Hn Hlink. unfold FilesystemBinstore_edit_file.
  rewrite bind_observe, Hlink, execute_one, call_run.
  now rewrite (dirname_join dir name Hne Hend Hn).
Qed.

End MoreProperties.

(** * The further properties on the sample repository *)

(** X1 on the sample: adding the flat directory. *)
Lemma add_calls_only_sample :
  forallb add_call
          (mutations (trace (GitBin_add 2 Sample.gitbin ["assets"]
                                        Scenes.flat_directory)))
  = true.
Proof.
  exact (add_calls_only 2 Sample.gitbin ["assets"] Scenes.flat_directory).
Defined.

(** X2 on the sample: a name that matches nothing. *)
Lemma add_missing_files_sample :
  outcome (GitBin_add 1 Sample.gitbin ["nothing.bin"] Sample.tracked)
  = Returned tt
  /\ final (GitBin_add 1 Sample.gitbin ["nothing.bin"] Sample.tracked)
     = Sample.tracked
  /\ mutations (trace (GitBin_add 1 Sample.gitbin ["nothing.bin"]
                                  Sample.tracked)) = [].
Proof.
  apply (add_missing_files 0 Sample.gitbin ["nothing.bin"] Sample.tracked).
  intros f [<- | []]. reflexivity.
Defined.

(** X3 on the sample: the text file in [assets]. *)
Lemma add_text_path_staged_sample :
  GitBin_add_one Sample.gitbin (GitBin_add 0 Sample.gitbin) 0
                 "assets/notes.txt" Scenes.flat_directory
  = mkRun (Returned tt) Scenes.flat_directory
          [ Printed (Line (Py.tab ++ "assets/notes.txt"));
            Called (RepoAdd "assets/notes.txt") ].
Proof.
  etransitivity.
  - apply add_text_path_staged; reflexivity.
  - reflexivity.
Defined.

(** X4 on the sample: the directory [assets]. *)
Lemma add_flat_directory_sample :
  GitBin_add_one Sample.gitbin (GitBin_add 1 Sample.gitbin) 1 "assets"
                 Scenes.flat_directory
  = (print (Line (Py.tab ++ "assets")) ;;
     print (Line (Py.tab ++ "recursing into assets")) ;;
     GitBin_add 1 Sample.gitbin ["assets/a.bin"; "assets/notes.txt"])
      Scenes.flat_directory.
Proof.
  etransitivity.
  - apply add_flat_directory; reflexivity.
  - reflexivity.
Defined.

(** X5 on the sample: the move of [small.bin] fails, [late.bin] is not
    looked at. *)
Lemma add_stops_at_failed_move_sample :
  outcome (for_each ["big.bin"; "small.bin"; "late.bin"]
                    (GitBin_add_one Sample.gitbin (GitBin_add 0 Sample.gitbin) 0)
                    Scenes.small_broken)
  = Raised (StepError "broken").
Proof.
  refine (proj1 (add_stops_at_failed_move
                   Sample.gitbin (GitBin_add 0 Sample.gitbin) 0
                   ["big.bin"] ["late.bin"] "small.bin" Scenes.small_broken
                   (StepError "broken") _ _ _ _ _ _)); reflexivity.
Defined.

(** X6 on the sample: the staged link is unstaged and copied over. *)
Lemma reset_calls_shape_sample :
  forallb (fun c => existsb (fun name => reset_call name c) ["logo.png"])
          (mutations (trace (GitBin_reset Sample.gitbin ["logo.png"]
                                          Sample.staged_logo)))
  = true.
Proof.
  exact (proj2 (reset_calls_shape Sample.gitbin ["logo.png"] "logo.png"
                                  Sample.staged_logo)).
Defined.

(** X7 on the sample: [notes.txt] is not staged, the unstage of
    [logo.png] fails, [late.png] is not queried. *)
Lemma reset_stops_at_failed_unstage_sample :
  outcome (for_each ["notes.txt"; "logo.png"; "late.png"]
                    (GitBin_reset_one Sample.gitbin) Scenes.logo_broken)
  = Raised (StepError "broken")
  /\ mutations (trace (for_each ["notes.txt"; "logo.png"; "late.png"]
                                (GitBin_reset_one Sample.gitbin)
                                Scenes.logo_broken))
     = [RepoUnstage "logo.png"].
Proof.
  split.
  - refine (proj1 (reset_stops_at_failed_unstage
                     Sample.gitbin ["notes.txt"] ["late.png"] "logo.png"
                     Scenes.logo_broken (StepError "broken") _ _ _));
      reflexivity.
  - reflexivity.
Defined.

(** X8 on the sample: a modified file is restored. *)
Lemma checkout_restores_iff_sample :
  In (RepoRestore "logo.png")
     (mutations (trace (GitBin_checkout_dashdash_one Sample.gitbin "logo.png"
                                                     (Sample.replaced 8)))).
Proof.
  apply (proj1 (checkout_restores_iff Sample.gitbin "logo.png"
                                      (Sample.replaced 8))).
  split; reflexivity.
Defined.


(** X10 on the sample: the configuration of the sample gives back what
    was set, and the second construction on the fresh clone is silent. *)
Lemma construction_idempotent_sample :
  FilesystemBinstore_new Sample.repo
    (final (FilesystemBinstore_new Sample.repo Sample.fresh))
  = mkRun (Returned Sample.store)
          (final (FilesystemBinstore_new Sample.repo Sample.fresh)) [].
Proof.
  apply (construction_idempotent Sample.repo Sample.store Sample.fresh).
  - intros w0 s k v. simpl. now rewrite String.eqb_refl.
  - reflexivity.
Defined.

(** X11 on the sample: nothing configured, a known command. *)
Lemma main_configuration_error_sample :
  main 1 (mkArgs "add" false ["big.bin"]) Sample.unconfigured
  = mkRun (Raised (PyException no_binstorebase_msg)) Sample.unconfigured [].
Proof.
  apply (main_configuration_error 1 (mkArgs "add" false ["big.bin"])
                                  Sample.unconfigured); reflexivity.
Defined.

(** X12 on the sample: [reset] through [main]. *)
Lemma main_runs_handler_sample :
  main 1 (mkArgs "reset" false ["logo.png"]) Sample.staged_logo
  = GitBin_reset Sample.gitbin ["logo.png"] Sample.staged_logo.
Proof.
  refine (main_runs_handler 1 "reset" false ["logo.png"] "/srv/binstore/repo"
                            Sample.staged_logo _ _ _ _);
    try reflexivity; discriminate.
Defined.

(** X13 on the sample: the link [add_file] left for [big.bin]. *)
Lemma alias_link_not_recognised_sample :
  is_binstore_link Sample.store "big.bin" Scenes.after_add
  = mkRun (Returned false) Scenes.after_add [].
Proof.
  apply (alias_link_not_recognised Sample.store Scenes.after_add "big.bin"
                                   Sample.logo_md5); reflexivity.
Defined.

(** X15 on the sample: the four steps for [big.bin]. *)
Lemma add_file_names_under_alias_sample :
  forallb
    (fun c =>
       match c with
       | Execute (SafeMoveFileCommand src dst _) =>
           String.eqb src "big.bin"
           && Py.startswith dst "/work/repo/.git/binstore"
       | Execute (LinkToFileCommand link target) =>
           String.eqb link "big.bin"
           && Py.startswith target "/work/repo/.git/binstore"
       | Execute (ChmodCommand _ file) =>
           Py.startswith file "/work/repo/.git/binstore"
       | Execute (GitAddCommand _ file) => String.eqb file "big.bin"
       | _ => false
       end)
    (mutations (trace (FilesystemBinstore_add_file Sample.store "big.bin"
                                                   Sample.fresh)))
  = true.
Proof.
  apply (add_file_names_under_alias Sample.store "big.bin" Sample.fresh).
  reflexivity.
Defined.

(** X16 on an absolute name. *)
Lemma justincase_absolute_sample :
  justincase_filename "/work/repo/logo.png" Sample.logo_md5
  = "/work/repo/logo.png" ++ "." ++ Sample.logo_md5 ++ ".justincase".
Proof.
  apply (justincase_absolute "/work/repo/logo.png" Sample.logo_md5).
  reflexivity.
Defined.

(** X17 on the sample: [big.bin] is no link in the fresh clone, and a
    link after the add. *)
Lemma edit_file_moves_back_sample :
  FilesystemBinstore_edit_file Sample.store "big.bin" Sample.fresh
  = mkRun (Raised OSError) Sample.fresh []
  /\ mutations (trace (FilesystemBinstore_edit_file Sample.store "big.bin"
                                                    Scenes.after_add))
     = [ Execute (SafeMoveFileCommand
                    "/work/repo/.git/binstore/9e107d9d372bb6826bd81d3542a419d6"
                    "big.bin" (Some "")) ].
Proof.
  split.
  - apply (proj1 (edit_file_moves_back Sample.store "big.bin" Sample.fresh)).
    reflexivity.
  - rewrite (proj1 (proj2 (edit_file_moves_back Sample.store "big.bin"
                                                Scenes.after_add))
                   ("/work/repo/.git/binstore/" ++ Sample.logo_md5));
      reflexivity.
Defined.

(** X18 on the sample: the file the walk of [assets] finds. *)
Lemma edit_file_in_walked_directory_sample :
  mutations (trace (FilesystemBinstore_edit_file Sample.store "assets/a.bin"
                                                 Scenes.walked_link))
  = [ Execute (SafeMoveFileCommand
                 "/work/repo/.git/binstore/9e107d9d372bb6826bd81d3542a419d6"
                 "assets/a.bin" (Some "assets")) ].
Proof.
  refine (edit_file_in_walked_directory
            Sample.store "assets" "a.bin"
            ("/work/repo/.git/binstore/" ++ Sample.logo_md5)
            Scenes.walked_link _ _ _ _);
    try reflexivity; discriminate.
Defined.
